(** * GIU staff schedule composer: the scheduling engine, embedded and verified

    The development follows the Python sources module by module:
    [models.py], [policy_validator.py], [course_scheduler.py],
    [global_scheduler.py], [conflict_resolver.py], [scheduler.py] and the
    backtracking driver of [backend/simple_main.py].

    Conventions of the embedding.
    - Python [int] is [Z]; [len] results are [nat].
    - A Python [set] is a [gset], a [dict] a [gmap]; where the code iterates
      a dict in insertion order the embedding keeps an association list.
    - Python floats.  A score that is a sum of integers and halves
      ([score_combination]) or one quotient of two counts
      ([difficulty_ratio], the mean workload) is kept as an exact rational
      ([Qc]): below 2^53 such sums are exact in binary64, and two
      quotients of counts below 2^26 compare as the rationals do.  The
      scores of the conflict resolution add a quotient to other terms,
      where every addition rounds; they are computed in IEEE binary64
      itself ([PyFloat], the primitive floats), rounding to nearest even
      as CPython does.
    - TA objects are shared between courses and mutated through
      [current_assignments]; a TA value carries the identity of its Python
      object ([ta_obj]) and the mutable dict lives in a [Store] indexed by
      that identity.  Assignments carry their identity too ([a_obj]),
      because the conflict resolver removes duplicates with [id(a)].
    - Messages built with f-strings are kept as constructors holding the
      interpolated values; a message joined from parts with [", "] or
      ["; "] is the list of its parts. *)

From stdpp Require Import gmap strings list fin_maps numbers sorting.
From Stdlib Require Import QArith Qcanon Floats.

#[local] Open Scope Z_scope.

(** ** Python built-ins used by the engine *)

Module Py.

(** [itertools.combinations(l, r)]: the sub-sequences of length [r], in
    lexicographic order of their positions. *)
Fixpoint combinations {A} (l : list A) (r : nat) : list (list A) :=
  match r, l with
  | O, _ => [[]]
  | S _, [] => []
  | S r', x :: t => map (cons x) (combinations t r') ++ combinations t r
  end.

(** [range(a, b)] *)
Definition range (a b : Z) : list Z :=
  map (λ i, a + Z.of_nat i) (seq 0 (Z.to_nat (b - a))).

(** [sorted(l, key=key)]: stable, ascending in the key.  [leb] is the
    order of the keys. *)
Section Sorted.
Context {A K : Type} (leb : K → K → bool) (key : A → K).

Fixpoint insert_sorted (x : A) (l : list A) : list A :=
  match l with
  | [] => [x]
  | y :: l' => if leb (key x) (key y) then x :: y :: l'
               else y :: insert_sorted x l'
  end.

Definition sorted (l : list A) : list A := foldr insert_sorted [] l.
End Sorted.

(** [max(l, key=key)] and [min(l, key=key)] on a non-empty list given as
    head and tail: the first extremal element wins. *)
Section Extremum.
Context {A K : Type} (ltb : K → K → bool) (key : A → K).

Definition max_by (x : A) (l : list A) : A :=
  foldl (λ best y, if ltb (key best) (key y) then y else best) x l.

Definition min_by (x : A) (l : list A) : A :=
  foldl (λ best y, if ltb (key y) (key best) then y else best) x l.
End Extremum.

(** [l.remove(x)]: drops the first element equal to [x].  (Python raises
    when there is none; every call of the engine is guarded by [x in l].) *)
Fixpoint remove {A} `{EqDecision A} (x : A) (l : list A) : list A :=
  match l with
  | [] => []
  | y :: l' => if decide (y = x) then l' else y :: remove x l'
  end.

Definition Zlength {A} (l : list A) : Z := Z.of_nat (length l).

Definition sumZ (l : list Z) : Z := foldr Z.add 0 l.

End Py.

(** ** Python floats

    A Python [float] is an IEEE binary64 number and its arithmetic rounds
    to nearest, ties to even, as the primitive floats do.  [of_int n] is
    [float(n)], the conversion Python applies to an [int] that meets a
    float.  [int / int] is the correctly rounded quotient; for operands
    below 2^53 it is the float quotient of the two conversions, which is
    how [truediv] is written.  A zero divisor raises [ZeroDivisionError]
    in Python; the callers below divide by a count that is at least one or
    by the weekly limit of a TA, taken to be positive. *)
Module PyFloat.

Definition of_int (n : Z) : float :=
  SF2Prim (binary_normalize prec emax n 0 false).

Definition truediv (a b : Z) : float := (of_int a / of_int b)%float.

Definition ltb (x y : float) : bool := PrimFloat.ltb x y.

Definition leb (x y : float) : bool := PrimFloat.leb x y.

(** The literal [0.8]: the binary64 number nearest to 8/10. *)
Definition lit_0_8 : float := 0x1.999999999999ap-1%float.

End PyFloat.

(** ** models.py *)

Inductive SlotType := TUTORIAL | LAB.

Inductive Day := SATURDAY | SUNDAY | MONDAY | TUESDAY | WEDNESDAY | THURSDAY.

Record TimeSlot := mkSlot {
  day : Day;
  slot_number : Z;
  slot_type : SlotType;
  duration : Z
}.

#[global] Instance SlotType_eq_dec : EqDecision SlotType.
Proof. solve_decision. Defined.

#[global] Instance Day_eq_dec : EqDecision Day.
Proof. solve_decision. Defined.

#[global] Instance TimeSlot_eq_dec : EqDecision TimeSlot.
Proof. solve_decision. Defined.

Definition SlotType_to_nat (t : SlotType) : nat :=
  match t with TUTORIAL => 0%nat | LAB => 1%nat end.

Definition SlotType_of_nat (n : nat) : SlotType :=
  match n with O => TUTORIAL | _ => LAB end.

Definition Day_to_nat (d : Day) : nat :=
  match d with
  | SATURDAY => 0 | SUNDAY => 1 | MONDAY => 2
  | TUESDAY => 3 | WEDNESDAY => 4 | THURSDAY => 5
  end%nat.

Definition Day_of_nat (n : nat) : Day :=
  match n with
  | 0 => SATURDAY | 1 => SUNDAY | 2 => MONDAY
  | 3 => TUESDAY | 4 => WEDNESDAY | _ => THURSDAY
  end%nat.

#[global] Instance SlotType_countable : Countable SlotType.
Proof.
  refine (inj_countable' SlotType_to_nat SlotType_of_nat _).
  by intros [].
Defined.

#[global] Instance Day_countable : Countable Day.
Proof.
  refine (inj_countable' Day_to_nat Day_of_nat _).
  by intros [].
Defined.

#[global] Instance TimeSlot_countable : Countable TimeSlot.
Proof.
  refine (inj_countable'
            (λ s, (day s, slot_number s, slot_type s, duration s))
            (λ t, match t with (d, n, ty, h) => mkSlot d n ty h end) _).
  by intros [].
Defined.

(** The mutable part of a TA, [current_assignments : Dict[str, List[TimeSlot]]]
    (course id to slots), held per TA object. *)
Abbreviation Assignments := (gmap string (list TimeSlot)).
Abbreviation Store := (gmap nat (gmap string (list TimeSlot))).

Record TA := mkTA {
  ta_obj : nat;
  ta_id : string;
  ta_name : string;
  max_weekly_hours : Z;
  available_slots : gset TimeSlot;
  preferred_slots : gmap TimeSlot Z
}.

Record Course := mkCourse {
  course_id : string;
  course_name : string;
  required_slots : list TimeSlot;
  assigned_tas : list TA
}.

Record SchedulingPolicies := mkPolicies {
  tutorial_lab_independence : bool;
  tutorial_lab_equal_count : bool;
  tutorial_lab_number_matching : bool;
  fairness_mode : bool
}.

Record ScheduleAssignment := mkAssignment {
  a_obj : nat;
  ta : TA;
  slot : TimeSlot;
  course : Course
}.

(** Messages.  Each constructor stands for one f-string of the sources and
    keeps the values the string interpolates. *)
Inductive Suggestion :=
| SugRemoveOne
| SugMoveOne
| SugOtherTA
| SugRemoveHours (excess_hours : Z)
| SugIncreaseMax (name : string)
| SugRedistribute
| SugIncreaseAvailability (name : string)
| SugReviewTiming (course_names : gset string)
| SugMoveCourses
| SugHire (name : string)
| SugReviewLimit (name : string)
| SugUnderutilized.

Inductive Message :=
| MsgNoTAsOrSlots
| MsgCouldNotAssign (n : nat) (slots : list TimeSlot)
| MsgNoCapacity
| MsgEqualCount (tutorial_count lab_count : nat)
| MsgUnmatchedTutorials (numbers : gset Z)
| MsgUnmatchedLabs (numbers : gset Z)
| MsgMultipleAssignments (name : string) (d : Day) (slot_num : Z)
| MsgResolvedGroups (groups removed : nat)
| MsgSummary (assigned unassigned conflicts : nat)
| MsgNoCourses
| MsgNoDoubleBooking
| MsgResolvedDoubleBooking (name : string) (d : Day) (slot_num : Z) (removed : nat)
| MsgNoOvercapacityToResolve
| MsgNoOvercapacityFor (name : string)
| MsgResolvedOvercapacity (name : string) (removed : nat)
| MsgConflictsDetected (total_conflicts : nat)
| MsgManualSuggestions (suggestions : list (nat * string * list Suggestion)).

(** *** class TA *)

Definition current_assignments (st : Store) (t : TA) : gmap string (list TimeSlot) :=
  default ∅ (st !! ta_obj t).

Definition slots_hours (slots : list TimeSlot) : Z :=
  Py.sumZ (duration <$> slots).

Definition get_total_assigned_hours (st : Store) (t : TA) : Z :=
  map_fold (λ _ slots total, total + slots_hours slots) 0 (current_assignments st t).

Definition get_remaining_capacity (st : Store) (t : TA) : Z :=
  max_weekly_hours t - get_total_assigned_hours st t.

Definition same_time (s1 s2 : TimeSlot) : bool :=
  bool_decide (day s1 = day s2) && bool_decide (slot_number s1 = slot_number s2).

Definition has_conflict (st : Store) (t : TA) (s : TimeSlot) : bool :=
  map_fold (λ _ slots found, found || existsb (λ a, same_time a s) slots)
           false (current_assignments st t).

Definition is_available_for_slot (st : Store) (t : TA) (s : TimeSlot) : bool :=
  bool_decide (s ∈ available_slots t) && negb (has_conflict st t s).

(** [ta.current_assignments[cid] = slots] *)
Definition set_assignments (st : Store) (t : TA) (cid : string)
    (slots : list TimeSlot) : Store :=
  <[ta_obj t := <[cid := slots]> (current_assignments st t)]> st.

(** [ta.current_assignments.clear()] *)
Definition clear_assignments (st : Store) (t : TA) : Store :=
  <[ta_obj t := ∅]> st.

(** [TA.__eq__] compares the ids only; [Course] and [ScheduleAssignment]
    have the field-wise equality of a dataclass.  ([Course.schedule] is
    never written by the engine and is left out.) *)
Definition TA_eqb (t1 t2 : TA) : bool := bool_decide (ta_id t1 = ta_id t2).

Definition Course_eqb (c1 c2 : Course) : bool :=
  bool_decide (course_id c1 = course_id c2)
  && bool_decide (course_name c1 = course_name c2)
  && bool_decide (required_slots c1 = required_slots c2)
  && bool_decide (ta_id <$> assigned_tas c1 = ta_id <$> assigned_tas c2).

Definition Assignment_eqb (a1 a2 : ScheduleAssignment) : bool :=
  TA_eqb (ta a1) (ta a2)
  && bool_decide (slot a1 = slot a2)
  && Course_eqb (course a1) (course a2).

(** [a in l] for a list of assignments *)
Definition Assignment_in (a : ScheduleAssignment) (l : list ScheduleAssignment) : bool :=
  existsb (Assignment_eqb a) l.

(** *** class Course *)

Definition get_total_hours (c : Course) : Z := slots_hours (required_slots c).

(** *** class GlobalSchedule *)

Record GlobalSchedule := mkGlobalSchedule {
  courses : list Course;
  assignments : list ScheduleAssignment
}.

(** A dict whose values are lists, filled with
    [if key not in d: d[key] = []; d[key].append(v)] and later iterated:
    Python keeps the keys in the order of their first insertion. *)
Fixpoint group_append {K V} `{EqDecision K} (k : K) (v : V)
    (g : list (K * list V)) : list (K * list V) :=
  match g with
  | [] => [(k, [v])]
  | (k', vs) :: g' =>
      if decide (k' = k) then (k', vs ++ [v]) :: g'
      else (k', vs) :: group_append k v g'
  end.

Definition group_by {K V} `{EqDecision K} (key : V → K) (l : list V)
    : list (K * list V) :=
  foldl (λ g v, group_append (key v) v g) [] l.

Definition get_schedule_grid (asg : list ScheduleAssignment)
    : list ((Day * Z) * list ScheduleAssignment) :=
  group_by (λ a, (day (slot a), slot_number (slot a))) asg.

(** The inner loop of [detect_conflicts] over the assignments of one grid
    cell; [seen] is the key set of [ta_count]. *)
Fixpoint cell_conflicts (d : Day) (n : Z) (seen : gset string)
    (l : list ScheduleAssignment) : list Message :=
  match l with
  | [] => []
  | a :: l' =>
      (if bool_decide (ta_id (ta a) ∈ seen)
       then [MsgMultipleAssignments (ta_name (ta a)) d n] else [])
      ++ cell_conflicts d n ({[ta_id (ta a)]} ∪ seen) l'
  end.

Definition detect_conflicts (asg : list ScheduleAssignment) : list Message :=
  flat_map (λ cell, cell_conflicts (cell.1.1) (cell.1.2) ∅ cell.2)
           (get_schedule_grid asg).

Record SchedulingResult := mkResult {
  global_schedule : GlobalSchedule;
  success : bool;
  message : list Message;
  unassigned_slots : list (Course * TimeSlot);
  policy_violations : list Message
}.

(** ** policy_validator.py *)

Module PolicyValidator.

Definition is_tutorial (s : TimeSlot) : bool := bool_decide (slot_type s = TUTORIAL).
Definition is_lab (s : TimeSlot) : bool := bool_decide (slot_type s = LAB).

Definition _check_equal_count_policy (slots : list TimeSlot) : list Message :=
  let tutorial_count := length (filter (λ s, is_tutorial s = true) slots) in
  let lab_count := length (filter (λ s, is_lab s = true) slots) in
  if decide (tutorial_count ≠ lab_count)
  then [MsgEqualCount tutorial_count lab_count] else [].

(** The two sets filled by the loop of [_check_number_matching_policy]. *)
Definition tutorial_numbers (slots : list TimeSlot) : gset Z :=
  list_to_set (slot_number <$> filter (λ s, is_tutorial s = true) slots).

Definition lab_numbers (slots : list TimeSlot) : gset Z :=
  list_to_set (slot_number <$> filter (λ s, is_tutorial s = false) slots).

Definition _check_number_matching_policy (slots : list TimeSlot) : list Message :=
  let unmatched_tutorials := tutorial_numbers slots ∖ lab_numbers slots in
  let unmatched_labs := lab_numbers slots ∖ tutorial_numbers slots in
  (if decide (unmatched_tutorials ≠ ∅)
   then [MsgUnmatchedTutorials unmatched_tutorials] else [])
  ++ (if decide (unmatched_labs ≠ ∅)
      then [MsgUnmatchedLabs unmatched_labs] else []).

(** [validate_assignment] reads neither the TA nor the course. *)
Definition validate_assignment (policies : SchedulingPolicies) (t : TA) (c : Course)
    (proposed_slots : list TimeSlot) : bool * list Message :=
  let violations :=
    if negb (tutorial_lab_independence policies) then
      (if tutorial_lab_equal_count policies
       then _check_equal_count_policy proposed_slots else [])
      ++ (if tutorial_lab_number_matching policies
          then _check_number_matching_policy proposed_slots else [])
    else [] in
  (bool_decide (length violations = 0%nat), violations).

Fixpoint parallel_from (slot_keys : gset (Day * Z)) (slots : list TimeSlot) : bool :=
  match slots with
  | [] => false
  | s :: slots' =>
      let key := (day s, slot_number s) in
      if bool_decide (key ∈ slot_keys) then true
      else parallel_from ({[key]} ∪ slot_keys) slots'
  end.

Definition _has_parallel_conflicts (slots : list TimeSlot) : bool :=
  parallel_from ∅ slots.

Definition _generate_independent_combinations (available : list TimeSlot)
    (max_slots : Z) : list (list TimeSlot) :=
  flat_map
    (λ r, filter (λ combo, _has_parallel_conflicts combo = false)
                 (Py.combinations available (Z.to_nat r)))
    (Py.range 1 (Z.min (max_slots + 1) (Py.Zlength available + 1))).

Definition _generate_equal_count_combinations (available : list TimeSlot)
    (max_slots : Z) : list (list TimeSlot) :=
  let tutorials := filter (λ s, is_tutorial s = true) available in
  let labs := filter (λ s, is_lab s = true) available in
  let max_pairs :=
    Z.min (Z.min (Py.Zlength tutorials) (Py.Zlength labs)) (max_slots `div` 2) in
  flat_map
    (λ pair_count,
       flat_map
         (λ tutorial_combo,
            flat_map
              (λ lab_combo,
                 let combination := tutorial_combo ++ lab_combo in
                 if bool_decide (Py.Zlength combination ≤ max_slots)
                    && negb (_has_parallel_conflicts combination)
                 then [combination] else [])
              (Py.combinations labs (Z.to_nat pair_count)))
         (Py.combinations tutorials (Z.to_nat pair_count)))
    (Py.range 1 (max_pairs + 1)).

(** [{slot.slot_number: slot for slot in slots}]: a later slot replaces an
    earlier one with the same number. *)
Definition by_number (slots : list TimeSlot) : gmap Z TimeSlot :=
  foldl (λ m s, <[slot_number s := s]> m) ∅ slots.

(** The numbers are drawn from a Python set of ints; CPython iterates a
    set of small non-negative ints (slot numbers are 1..5) in ascending
    order.  The [None] branch is not reached: every number of
    [matching_numbers] is a key of both dicts. *)
Definition _generate_number_matching_combinations (available : list TimeSlot)
    (max_slots : Z) : list (list TimeSlot) :=
  let tutorials := by_number (filter (λ s, is_tutorial s = true) available) in
  let labs := by_number (filter (λ s, is_lab s = true) available) in
  let matching_numbers : gset Z := dom tutorials ∩ dom labs in
  if decide (matching_numbers = ∅) then [] else
  let max_pairs :=
    Z.min (Z.of_nat (size matching_numbers)) (max_slots `div` 2) in
  flat_map
    (λ pair_count,
       flat_map
         (λ number_combo,
            let combination :=
              flat_map (λ number,
                          match tutorials !! number, labs !! number with
                          | Some t, Some l => [t; l]
                          | _, _ => []
                          end) number_combo in
            if bool_decide (Py.Zlength combination ≤ max_slots)
               && negb (_has_parallel_conflicts combination)
            then [combination] else [])
         (Py.combinations (merge_sort Z.le (elements matching_numbers))
                          (Z.to_nat pair_count)))
    (Py.range 1 (max_pairs + 1)).

Definition get_valid_slot_combinations (policies : SchedulingPolicies) (st : Store)
    (t : TA) (c : Course) (max_slots : Z) : list (list TimeSlot) :=
  let available :=
    filter (λ s, is_available_for_slot st t s = true) (required_slots c) in
  if decide (available = []) then [] else
  if tutorial_lab_independence policies
  then _generate_independent_combinations available max_slots
  else
    let equal_count_enabled := tutorial_lab_equal_count policies in
    let number_matching_enabled := tutorial_lab_number_matching policies in
    if equal_count_enabled && number_matching_enabled then
      filter (λ combo, _check_number_matching_policy combo = [])
             (_generate_equal_count_combinations available max_slots)
    else if equal_count_enabled then
      _generate_equal_count_combinations available max_slots
    else if number_matching_enabled then
      _generate_number_matching_combinations available max_slots
    else _generate_independent_combinations available max_slots.

End PolicyValidator.

(** ** course_scheduler.py *)

Module CourseScheduler.
Import PolicyValidator.

Definition Qc_ltb (x y : Qc) : bool := bool_decide (x < y)%Qc.

Definition half : Qc := Q2Qc (1 # 2).

(** The local function [score_combination] of [_select_best_combination]. *)
Definition score_combination (t : TA) (combo : list TimeSlot) : Qc :=
  let score :=
    foldl (λ score s,
             match preferred_slots t !! s with
             | Some preference_rank =>
                 score + Qc_of_Z (Z.max 0 (10 - preference_rank))
             | None => score + Qc_of_Z 5
             end)%Qc
          0%Qc combo in
  let bonus := (Qc_of_Z (Py.Zlength combo) * half)%Qc in
  (score + bonus)%Qc.

Definition _select_best_combination (t : TA) (combinations : list (list TimeSlot))
    : list TimeSlot :=
  match combinations with
  | [] => []
  | combo :: rest => Py.max_by Qc_ltb (score_combination t) combo rest
  end.

(** The local function [difficulty_score] of [_sort_slots_by_difficulty]. *)
Definition available_count (st : Store) (tas : list TA) (s : TimeSlot) : Z :=
  Py.Zlength (filter (λ t, is_available_for_slot st t s = true) tas).

Definition difficulty_score (st : Store) (tas : list TA) (s : TimeSlot) : Z :=
  - available_count st tas s.

Definition _sort_slots_by_difficulty (st : Store) (slots : list TimeSlot)
    (tas : list TA) : list TimeSlot :=
  Py.sorted Z.leb (difficulty_score st tas) slots.

(** The state of a scheduling loop: the TA store, the assignments made so
    far, the violations and the course's list of unassigned slots (which
    [schedule_course] owns and the strategies mutate). *)
Record Loop := mkLoop {
  l_store : Store;
  l_assignments : list ScheduleAssignment;
  l_violations : list Message;
  l_unassigned : list TimeSlot
}.

(** [for slot in best_combination: if slot in unassigned_slots: ...].
    [base] is the number of assignment objects created before this course;
    a new assignment takes the next free identity. *)
Definition take_slot (base : nat) (t : TA) (c : Course)
    (acc : list ScheduleAssignment * list TimeSlot * list TimeSlot) (s : TimeSlot)
    : list ScheduleAssignment * list TimeSlot * list TimeSlot :=
  let '(asg, assigned_slots, unassigned) := acc in
  if bool_decide (s ∈ unassigned)
  then (asg ++ [mkAssignment (base + length asg) t s c],
        assigned_slots ++ [s], Py.remove s unassigned)
  else acc.

(** One iteration of [for ta in course.assigned_tas] in [_schedule_greedy]. *)
Definition greedy_step (policies : SchedulingPolicies) (base : nat) (c : Course)
    (g : Loop) (t : TA) : Loop :=
  let max_assignable_hours := get_remaining_capacity (l_store g) t in
  if bool_decide (max_assignable_hours < 2) then g else
  let max_assignable_slots := max_assignable_hours `div` 2 in
  let valid_combinations :=
    get_valid_slot_combinations policies (l_store g) t c max_assignable_slots in
  if decide (valid_combinations = []) then g else
  let best_combination := _select_best_combination t valid_combinations in
  let '(asg, assigned_slots, unassigned) :=
    foldl (take_slot base t c) (l_assignments g, [], l_unassigned g)
          best_combination in
  let violations :=
    if decide (assigned_slots = []) then l_violations g else
    let '(is_valid, slot_violations) :=
      validate_assignment policies t c assigned_slots in
    if is_valid then l_violations g else l_violations g ++ slot_violations in
  {| l_store := set_assignments (l_store g) t (course_id c) assigned_slots;
     l_assignments := asg;
     l_violations := violations;
     l_unassigned := unassigned |}.

Definition _schedule_greedy (policies : SchedulingPolicies) (base : nat)
    (st : Store) (c : Course) (unassigned_slots : list TimeSlot) : Loop :=
  foldl (greedy_step policies base c) (mkLoop st [] [] unassigned_slots)
        (assigned_tas c).

(** [len(assignments_per_ta[ta.id])] *)
Definition load (per_ta : gmap string (list TimeSlot)) (t : TA) : nat :=
  length (default [] (per_ta !! ta_id t)).

Definition nat_ltb (x y : nat) : bool := bool_decide (x < y)%nat.

(** One iteration of [for slot in sorted_slots] in [_schedule_with_fairness].
    The store is not written inside this loop, so [is_available_for_slot]
    reads the assignments of the courses scheduled before. *)
Definition fairness_step (base : nat) (st : Store) (c : Course)
    (available_tas : list TA) (target_hours_per_ta : Z)
    (acc : list ScheduleAssignment * gmap string (list TimeSlot) * list TimeSlot)
    (s : TimeSlot)
    : list ScheduleAssignment * gmap string (list TimeSlot) * list TimeSlot :=
  let '(asg, per_ta, unassigned) := acc in
  if negb (bool_decide (s ∈ unassigned)) then acc else
  let eligible_tas :=
    filter (λ t, (is_available_for_slot st t s
                  && bool_decide (Z.of_nat (load per_ta t) * 2
                                  < target_hours_per_ta + 2)) = true)
           available_tas in
  let eligible_tas :=
    if decide (eligible_tas = [])
    then filter (λ t, is_available_for_slot st t s = true) available_tas
    else eligible_tas in
  match eligible_tas with
  | [] => acc
  | t0 :: rest =>
      let chosen_ta := Py.min_by nat_ltb (load per_ta) t0 rest in
      (asg ++ [mkAssignment (base + length asg) chosen_ta s c],
       <[ta_id chosen_ta := default [] (per_ta !! ta_id chosen_ta) ++ [s]]> per_ta,
       Py.remove s unassigned)
  end.

(** One iteration of the closing loop [for ta in available_tas]. *)
Definition fairness_commit (policies : SchedulingPolicies) (c : Course)
    (per_ta : gmap string (list TimeSlot))
    (acc : Store * list Message) (t : TA) : Store * list Message :=
  let '(st, violations) := acc in
  let assigned_slots := default [] (per_ta !! ta_id t) in
  if decide (assigned_slots = []) then acc else
  let '(is_valid, slot_violations) :=
    validate_assignment policies t c assigned_slots in
  (set_assignments st t (course_id c) assigned_slots,
   if is_valid then violations else violations ++ slot_violations).

Definition _schedule_with_fairness (policies : SchedulingPolicies) (base : nat)
    (st : Store) (c : Course) (unassigned_slots : list TimeSlot) : Loop :=
  let available_tas :=
    filter (λ t, bool_decide (get_remaining_capacity st t >= 2) = true)
           (assigned_tas c) in
  if decide (available_tas = [])
  then mkLoop st [] [MsgNoCapacity] unassigned_slots else
  let target_hours_per_ta := get_total_hours c `div` Py.Zlength available_tas in
  let assignments_per_ta : gmap string (list TimeSlot) :=
    foldl (λ m t, <[ta_id t := []]> m) ∅ available_tas in
  let sorted_slots := _sort_slots_by_difficulty st unassigned_slots available_tas in
  let '(asg, per_ta, unassigned) :=
    foldl (fairness_step base st c available_tas target_hours_per_ta)
          ([], assignments_per_ta, unassigned_slots) sorted_slots in
  let '(st', violations) :=
    foldl (fairness_commit policies c per_ta) (st, []) available_tas in
  mkLoop st' asg violations unassigned.

Definition schedule_course (policies : SchedulingPolicies) (base : nat)
    (st : Store) (c : Course) : Store * list ScheduleAssignment * list Message :=
  if bool_decide (assigned_tas c = []) || bool_decide (required_slots c = [])
  then (st, [], [MsgNoTAsOrSlots]) else
  let unassigned_slots := required_slots c in
  let r :=
    if fairness_mode policies
    then _schedule_with_fairness policies base st c unassigned_slots
    else _schedule_greedy policies base st c unassigned_slots in
  let violations :=
    if decide (l_unassigned r = []) then l_violations r
    else l_violations r
         ++ [MsgCouldNotAssign (length (l_unassigned r)) (l_unassigned r)] in
  (l_store r, l_assignments r, violations).

(** *** optimize_assignments

    [ta_workloads] is a dict filled in the order the TA ids are first met;
    it is kept as an association list.  [random.shuffle] draws from the
    interpreter's global generator: the permutation it produces is not a
    function of the arguments, so it is a parameter [shuffle] of the
    embedding. *)

Fixpoint add_load (tid : string) (d : Z) (w : list (string * Z)) : list (string * Z) :=
  match w with
  | [] => [(tid, d)]
  | (k, v) :: w' => if decide (k = tid) then (k, v + d) :: w'
                    else (k, v) :: add_load tid d w'
  end.

Definition get_load (tid : string) (w : list (string * Z)) : Z :=
  default 0 (snd <$> List.find (λ kv, bool_decide (kv.1 = tid)) w).

Definition Qc_leb (x y : Qc) : bool := bool_decide (x ≤ y)%Qc.

Definition Qc_abs (x : Qc) : Qc := if Qc_ltb x 0 then (- x)%Qc else x.

Section Rebalance.
Variable shuffle : list ScheduleAssignment → list ScheduleAssignment.

(** [assignment.ta = under_ta]: the object is updated in place, so every
    entry of the list that is this object sees the new TA. *)
Definition set_ta (obj : nat) (t : TA) (l : list ScheduleAssignment)
    : list ScheduleAssignment :=
  map (λ a, if decide (a_obj a = obj)
            then mkAssignment (a_obj a) t (slot a) (course a) else a) l.

(** The body of [for under_ta_id, _ in underloaded] up to the test that
    leaves the loop: the first assignment of the overloaded TA that the
    other TA can take is moved. *)
Definition transfer (st : Store) (over_ta_id under_ta_id : string)
    (acc : list ScheduleAssignment * list (string * Z))
    : list ScheduleAssignment * list (string * Z) :=
  let '(new_assignments, workloads) := acc in
  let over_assignments :=
    filter (λ a, ta_id (ta a) = over_ta_id) new_assignments in
  let movable a :=
    match List.find (λ t, bool_decide (ta_id t = under_ta_id))
                    (assigned_tas (course a)) with
    | Some under_ta =>
        if is_available_for_slot st under_ta (slot a) then Some under_ta else None
    | None => None
    end in
  match List.find (λ a, bool_decide (is_Some (movable a))) over_assignments with
  | Some a =>
      match movable a with
      | Some under_ta =>
          (set_ta (a_obj a) under_ta new_assignments,
           add_load under_ta_id (duration (slot a))
                    (add_load over_ta_id (- duration (slot a)) workloads))
      | None => acc
      end
  | None => acc
  end.

Fixpoint under_loop (st : Store) (target : Qc) (over_ta_id : string)
    (underloaded : list (string * Z))
    (acc : list ScheduleAssignment * list (string * Z))
    : list ScheduleAssignment * list (string * Z) :=
  match underloaded with
  | [] => acc
  | (under_ta_id, _) :: rest =>
      let acc' := transfer st over_ta_id under_ta_id acc in
      if Qc_leb (Qc_abs (Qc_of_Z (get_load over_ta_id acc'.2) - target)) (Qc_of_Z 2)
      then acc'
      else under_loop st target over_ta_id rest acc'
  end.

Definition _rebalance_assignments (st : Store) (asg : list ScheduleAssignment)
    (workloads : list (string * Z)) (target : Qc) : list ScheduleAssignment :=
  let overloaded :=
    filter (λ kv, Qc_ltb (target + Qc_of_Z 2) (Qc_of_Z kv.2) = true) workloads in
  let underloaded :=
    filter (λ kv, Qc_ltb (Qc_of_Z kv.2) (target - Qc_of_Z 2) = true) workloads in
  if bool_decide (overloaded = []) || bool_decide (underloaded = []) then asg else
  let new_assignments := shuffle asg in
  (foldl (λ acc over, under_loop st target over.1 underloaded acc)
         (new_assignments, workloads) overloaded).1.

(** [std_dev <= 1.0] is tested on the variance: the square root is
    monotone and fixes 1. *)
Definition optimize_assignments (policies : SchedulingPolicies) (st : Store)
    (c : Course) (asg : list ScheduleAssignment) : list ScheduleAssignment :=
  if negb (fairness_mode policies) then asg else
  let ta_workloads :=
    foldl (λ w a, add_load (ta_id (ta a)) (duration (slot a)) w) [] asg in
  if decide (ta_workloads = []) then asg else
  let n := Qc_of_Z (Py.Zlength ta_workloads) in
  let mean_workload := (Qc_of_Z (Py.sumZ (snd <$> ta_workloads)) / n)%Qc in
  let variance :=
    (foldr Qcplus 0
       ((λ kv, (Qc_of_Z kv.2 - mean_workload) * (Qc_of_Z kv.2 - mean_workload))
          <$> ta_workloads) / n)%Qc in
  if Qc_leb variance 1 then asg
  else _rebalance_assignments st asg ta_workloads mean_workload.

End Rebalance.

End CourseScheduler.

(** ** global_scheduler.py *)

Module GlobalScheduler.
Import CourseScheduler.

(** [all_tas] is a set of TA objects; objects with equal ids are equal, so
    of several objects with one id only the first met is kept and cleared. *)
Definition _reset_ta_assignments (st : Store) (cs : list Course) : Store :=
  (foldl (λ '(st, seen) t,
            if bool_decide (ta_id t ∈ seen) then (st, seen)
            else (clear_assignments st t, {[ta_id t]} ∪ seen))
         (st, (∅ : gset string)) (flat_map assigned_tas cs)).1.

(** The sort key of [_sort_courses_by_priority], a tuple compared
    lexicographically. *)
Definition capable_tas (st : Store) (c : Course) : Z :=
  Py.Zlength (filter (λ t, bool_decide (get_remaining_capacity st t >= 2) = true)
                     (assigned_tas c)).

Definition difficulty_ratio (st : Store) (c : Course) : Qc :=
  (Qc_of_Z (Py.Zlength (required_slots c))
   / Qc_of_Z (Z.max (capable_tas st c) 1))%Qc.

Definition priority_score (st : Store) (c : Course) : Qc * Z * Z :=
  ((- difficulty_ratio st c)%Qc,
   - Py.Zlength (required_slots c),
   - Py.Zlength (assigned_tas c)).

Definition tuple_leb (x y : Qc * Z * Z) : bool :=
  let '(x1, x2, x3) := x in
  let '(y1, y2, y3) := y in
  if decide (x1 = y1) then
    if decide (x2 = y2) then bool_decide (x3 ≤ y3) else bool_decide (x2 < y2)
  else Qc_ltb x1 y1.

Definition _sort_courses_by_priority (st : Store) (cs : list Course) : list Course :=
  Py.sorted tuple_leb (priority_score st) cs.

Definition _assignments_conflict (a1 a2 : ScheduleAssignment) : bool :=
  bool_decide (ta_id (ta a1) = ta_id (ta a2))
  && bool_decide (day (slot a1) = day (slot a2))
  && bool_decide (slot_number (slot a1) = slot_number (slot a2)).

(** The inner loop of [_group_conflicting_assignments], over the entries
    after position [i]; [j] is the position of the head of [l]. *)
Fixpoint collect_group (a1 : ScheduleAssignment) (j : nat)
    (l : list ScheduleAssignment) (group : list ScheduleAssignment)
    (processed : gset nat) : list ScheduleAssignment * gset nat :=
  match l with
  | [] => (group, processed)
  | a2 :: l' =>
      if bool_decide (j ∈ processed) then collect_group a1 (S j) l' group processed
      else if _assignments_conflict a1 a2
           then collect_group a1 (S j) l' (group ++ [a2]) ({[j]} ∪ processed)
           else collect_group a1 (S j) l' group processed
  end.

Fixpoint group_from (i : nat) (l : list ScheduleAssignment) (processed : gset nat)
    : list (list ScheduleAssignment) :=
  match l with
  | [] => []
  | a1 :: l' =>
      if bool_decide (i ∈ processed) then group_from (S i) l' processed else
      let '(group, processed') :=
        collect_group a1 (S i) l' [a1] ({[i]} ∪ processed) in
      (if bool_decide (1 < length group)%nat then [group] else [])
      ++ group_from (S i) l' processed'
  end.

Definition _group_conflicting_assignments (asg : list ScheduleAssignment)
    : list (list ScheduleAssignment) :=
  group_from 0 asg ∅.

(** The local function [assignment_score], a float built by three
    additions.  It divides by [max_weekly_hours]; a TA that holds an
    assignment had at least two free hours when it was chosen, so the
    divisor is not zero. *)
Definition assignment_score (st : Store) (a : ScheduleAssignment) : float :=
  let score := 0%float in
  let score :=
    match preferred_slots (ta a) !! slot a with
    | Some preference_rank =>
        (score + PyFloat.of_int (Z.max 0 (10 - preference_rank)))%float
    | None => score
    end in
  let course_priority :=
    (1 / PyFloat.of_int (Z.max (Py.Zlength (assigned_tas (course a))) 1))%float in
  let score := (score + course_priority)%float in
  let ta_workload_ratio :=
    PyFloat.truediv (get_total_assigned_hours st (ta a)) (max_weekly_hours (ta a)) in
  if PyFloat.ltb ta_workload_ratio PyFloat.lit_0_8
  then (score + PyFloat.of_int 2)%float
  else score.

Definition _select_best_assignment_from_conflict (st : Store)
    (a : ScheduleAssignment) (rest : list ScheduleAssignment) : ScheduleAssignment :=
  Py.max_by PyFloat.ltb (assignment_score st) a rest.

(** Every group of [conflict_groups] has more than one member, so the
    [else] branch of the loop over the groups is not taken; an empty group
    does not occur. *)
Definition _resolve_conflicts (st : Store) (asg : list ScheduleAssignment)
    : list ScheduleAssignment * Message :=
  let conflict_groups := _group_conflicting_assignments asg in
  let resolved :=
    flat_map (λ group,
                match group with
                | [] => []
                | a :: rest =>
                    if bool_decide (1 < length group)%nat
                    then [_select_best_assignment_from_conflict st a rest]
                    else [a]
                end) conflict_groups in
  let removed_count :=
    foldl (λ n group, if bool_decide (1 < length group)%nat
                      then (n + (length group - 1))%nat else n) 0%nat
          conflict_groups in
  let non_conflicting :=
    filter (λ a, existsb (Assignment_in a) conflict_groups = false) asg in
  (resolved ++ non_conflicting,
   MsgResolvedGroups (length conflict_groups) removed_count).

(** The loop over the sorted courses of [schedule_all_courses]. *)
Definition course_step (policies : SchedulingPolicies)
    (acc : Store * list ScheduleAssignment * list Message * list (Course * TimeSlot))
    (c : Course)
    : Store * list ScheduleAssignment * list Message * list (Course * TimeSlot) :=
  let '(st, all_assignments, all_violations, unassigned) := acc in
  let '(st', course_assignments, violations) :=
    schedule_course policies (length all_assignments) st c in
  (st',
   all_assignments ++ course_assignments,
   all_violations ++ violations,
   unassigned
   ++ ((λ s, (c, s)) <$>
       filter (λ s, existsb (λ a, bool_decide (slot a = s)) course_assignments = false)
              (required_slots c))).

Definition schedule_all_courses (policies : SchedulingPolicies) (st : Store)
    (cs : list Course) : Store * SchedulingResult :=
  if decide (cs = []) then
    (st, mkResult (mkGlobalSchedule [] []) false [MsgNoCourses] [] [])
  else
  let st0 := _reset_ta_assignments st cs in
  let sorted_courses := _sort_courses_by_priority st0 cs in
  let '(st1, all_assignments, all_violations, unassigned) :=
    foldl (course_step policies) (st0, [], [], []) sorted_courses in
  let conflicts := detect_conflicts all_assignments in
  let success := bool_decide (conflicts = []) && bool_decide (unassigned = []) in
  let '(final_assignments, all_violations) :=
    if decide (conflicts = []) then (all_assignments, all_violations)
    else let '(resolved, resolution_message) := _resolve_conflicts st1 all_assignments in
         (resolved, all_violations ++ [resolution_message]) in
  (st1,
   mkResult (mkGlobalSchedule cs final_assignments) success
            [MsgSummary (length all_assignments) (length unassigned) (length conflicts)]
            unassigned all_violations).

(** *** _balance_workloads

    [ta_assignments] is a dict from TA id to the TA's assignments, in the
    order the ids are first met.  The key of the sort is the boolean
    [a.slot in a.ta.preferred_slots], with [False < True]. *)
Definition is_preferred (a : ScheduleAssignment) : bool :=
  bool_decide (is_Some (preferred_slots (ta a) !! slot a)).

Definition bool_leb (x y : bool) : bool := implb x y.

(** The loop that keeps assignments while the hours stay within the limit
    and stops at the first assignment that does not fit. *)
Fixpoint keep_below (limit : Qc) (current_hours : Z) (l : list ScheduleAssignment)
    : list ScheduleAssignment :=
  match l with
  | [] => []
  | a :: l' =>
      if Qc_leb (Qc_of_Z (current_hours + duration (slot a))) limit
      then a :: keep_below limit (current_hours + duration (slot a)) l'
      else []
  end.

Definition _balance_workloads (policies : SchedulingPolicies)
    (asg : list ScheduleAssignment) : list ScheduleAssignment :=
  if negb (fairness_mode policies) then asg else
  let ta_assignments := group_by (λ a, ta_id (ta a)) asg in
  let workloads := (λ kv, slots_hours (slot <$> kv.2)) <$> ta_assignments in
  if decide (workloads = []) then asg else
  let mean_workload :=
    (Qc_of_Z (Py.sumZ workloads) / Qc_of_Z (Py.Zlength workloads))%Qc in
  flat_map
    (λ kv,
       let assigns := kv.2 in
       let current_workload := slots_hours (slot <$> assigns) in
       if Qc_ltb (mean_workload + Qc_of_Z 2) (Qc_of_Z current_workload) then
         keep_below (mean_workload + Qc_of_Z 2) 0
                    (Py.sorted bool_leb is_preferred assigns)
       else assigns)
    ta_assignments.

End GlobalScheduler.

(** ** conflict_resolver.py *)

Module ConflictResolver.
Import CourseScheduler.

Record ConflictInfo := mkConflict {
  ci_assignments : list ScheduleAssignment;
  conflict_type : string;
  severity : Z;
  resolution_suggestions : list Suggestion
}.

Definition _detect_double_bookings (asg : list ScheduleAssignment) : list ConflictInfo :=
  let time_slot_map :=
    group_by (λ a, (ta_id (ta a), day (slot a), slot_number (slot a))) asg in
  flat_map (λ '(_, slot_assignments),
              if bool_decide (1 < length slot_assignments)%nat
              then [mkConflict slot_assignments "ta_double_booking" 10
                               [SugRemoveOne; SugMoveOne; SugOtherTA]]
              else [])
           time_slot_map.

(** [ta_workloads[ta_id]['ta']] is the TA of the first assignment met for
    the id; a group is never empty. *)
Definition _detect_overcapacity (asg : list ScheduleAssignment) : list ConflictInfo :=
  let ta_workloads := group_by (λ a, ta_id (ta a)) asg in
  flat_map (λ '(_, ta_assignments),
              match ta_assignments with
              | [] => []
              | a :: _ =>
                  let t := ta a in
                  let total_hours := slots_hours (slot <$> ta_assignments) in
                  if bool_decide (total_hours > max_weekly_hours t)
                  then [mkConflict ta_assignments "overcapacity" 8
                          [SugRemoveHours (total_hours - max_weekly_hours t);
                           SugIncreaseMax (ta_name t); SugRedistribute]]
                  else []
              end)
           ta_workloads.

(** The function groups the assignments by (TA, course) and then returns
    its empty list [conflicts] as it is: the grouping is never read. *)
Definition _detect_policy_violations (asg : list ScheduleAssignment) : list ConflictInfo :=
  let ta_course_assignments :=
    group_by (λ a, (ta_id (ta a), course_id (course a))) asg in
  [].

Definition detect_all_conflicts (asg : list ScheduleAssignment) : list ConflictInfo :=
  _detect_double_bookings asg ++ _detect_overcapacity asg
  ++ _detect_policy_violations asg.

(** The local function [assignment_score] of [_select_best_assignment], a
    float: [score] starts at [0.0] and every [+=] is one rounded addition.
    It divides by [max_weekly_hours], which Python refuses when the limit
    is zero; the embedding is meant for TAs with a positive limit. *)
Definition assignment_score (st : Store) (a : ScheduleAssignment) : float :=
  let score := 0%float in
  let score :=
    match preferred_slots (ta a) !! slot a with
    | Some preference_rank =>
        (score + PyFloat.of_int (Z.max 0 (10 - preference_rank)))%float
    | None => score
    end in
  let course_urgency :=
    PyFloat.truediv (Py.Zlength (required_slots (course a)))
                    (Z.max (Py.Zlength (assigned_tas (course a))) 1) in
  let score := (score + course_urgency)%float in
  let ta_utilization :=
    PyFloat.truediv (get_total_assigned_hours st (ta a)) (max_weekly_hours (ta a)) in
  if PyFloat.ltb ta_utilization PyFloat.lit_0_8
  then (score + PyFloat.of_int 2)%float
  else score.

(** [max(assignments, key=assignment_score)]: the first assignment that no
    later one beats with [>]. *)
Definition _select_best_assignment (st : Store) (a : ScheduleAssignment)
    (rest : list ScheduleAssignment) : ScheduleAssignment :=
  Py.max_by PyFloat.ltb (assignment_score st) a rest.

(** A float again: [priority] starts at [0.0], [-=] and [+=] round. *)
Definition _assignment_removal_priority (a : ScheduleAssignment) : float :=
  let priority := 0%float in
  let priority :=
    match preferred_slots (ta a) !! slot a with
    | Some preference_rank =>
        (priority - PyFloat.of_int (Z.max 0 (10 - preference_rank)))%float
    | None => priority
    end in
  let course_flexibility :=
    PyFloat.truediv (Py.Zlength (assigned_tas (course a)))
                    (Z.max (Py.Zlength (required_slots (course a))) 1) in
  (priority + course_flexibility)%float.

Definition _resolve_double_booking (st : Store) (conflict : ConflictInfo)
    (current : list ScheduleAssignment) : list ScheduleAssignment * Message :=
  let conflicting :=
    filter (λ a, Assignment_in a (ci_assignments conflict) = true) current in
  match conflicting with
  | [] | [_] => (current, MsgNoDoubleBooking)
  | a :: rest =>
      let best_assignment := _select_best_assignment st a rest in
      (filter (λ a, Assignment_in a conflicting = false) current ++ [best_assignment],
       MsgResolvedDoubleBooking (ta_name (ta best_assignment))
         (day (slot best_assignment)) (slot_number (slot best_assignment))
         (length conflicting - 1))
  end.

(** The loop that keeps assignments while they fit and stops at the first
    one that does not. *)
Fixpoint keep_within (max_hours kept_hours : Z) (l : list ScheduleAssignment)
    : list ScheduleAssignment :=
  match l with
  | [] => []
  | a :: l' =>
      if bool_decide (kept_hours + duration (slot a) ≤ max_hours)
      then a :: keep_within max_hours (kept_hours + duration (slot a)) l'
      else []
  end.

Definition _resolve_overcapacity (conflict : ConflictInfo)
    (current : list ScheduleAssignment) : list ScheduleAssignment * Message :=
  let overcapacity :=
    filter (λ a, Assignment_in a (ci_assignments conflict) = true) current in
  match overcapacity with
  | [] => (current, MsgNoOvercapacityToResolve)
  | a :: _ =>
      let t := ta a in
      let total_hours := slots_hours (slot <$> overcapacity) in
      let excess_hours := total_hours - max_weekly_hours t in
      if bool_decide (excess_hours ≤ 0)
      then (current, MsgNoOvercapacityFor (ta_name t)) else
      let sorted_assignments :=
        Py.sorted PyFloat.leb _assignment_removal_priority overcapacity in
      let kept := keep_within (max_weekly_hours t) 0 sorted_assignments in
      (filter (λ a, Assignment_in a overcapacity = false) current ++ kept,
       MsgResolvedOvercapacity (ta_name t) (length overcapacity - length kept))
  end.

(** [list({id(a): a for a in all_assignments}.values())]: one entry per
    object, at the place where the object is first met. *)
Fixpoint put_object (a : ScheduleAssignment) (d : list ScheduleAssignment)
    : list ScheduleAssignment :=
  match d with
  | [] => [a]
  | b :: d' => if decide (a_obj b = a_obj a) then a :: d' else b :: put_object a d'
  end.

Definition unique_objects (l : list ScheduleAssignment) : list ScheduleAssignment :=
  foldl (λ d a, put_object a d) [] l.

(** One iteration of [for conflict in sorted_conflicts]. *)
Definition resolve_step (st : Store)
    (acc : list ScheduleAssignment * list Message) (conflict : ConflictInfo)
    : list ScheduleAssignment * list Message :=
  let '(resolved_assignments, resolution_messages) := acc in
  if decide (conflict_type conflict = "ta_double_booking") then
    let '(resolved, msg) := _resolve_double_booking st conflict resolved_assignments in
    (resolved, resolution_messages ++ [msg])
  else if decide (conflict_type conflict = "overcapacity") then
    let '(resolved, msg) := _resolve_overcapacity conflict resolved_assignments in
    (resolved, resolution_messages ++ [msg])
  else acc.

(** [sorted(conflicts, key=severity, reverse=True)]: descending, and equal
    severities keep their order. *)
Definition sorted_conflicts (conflicts : list ConflictInfo) : list ConflictInfo :=
  Py.sorted Z.geb severity conflicts.

Definition resolve_conflicts_automatically (st : Store) (conflicts : list ConflictInfo)
    : list ScheduleAssignment * list Message :=
  if decide (conflicts = []) then ([], []) else
  let all_assignments := flat_map ci_assignments conflicts in
  let unique_assignments := unique_objects all_assignments in
  foldl (resolve_step st) (unique_assignments, []) (sorted_conflicts conflicts).

(** [get_conflict_summary]: a dict from strings to counts.  The four fixed
    keys are written after the counts per type, so a conflict type spelled
    like one of them is overwritten. *)
Definition count_sev (P : Z → bool) (conflicts : list ConflictInfo) : Z :=
  Py.Zlength (filter (λ c, P (severity c) = true) conflicts).

Definition get_conflict_summary (conflicts : list ConflictInfo) : gmap string Z :=
  let summary :=
    foldl (λ (summary : gmap string Z) c,
             <[conflict_type c := default 0 (summary !! conflict_type c) + 1]> summary)
          ∅ conflicts in
  let summary := <["total_conflicts" := Py.Zlength conflicts]> summary in
  let summary :=
    <["high_severity" := count_sev (λ v, bool_decide (v >= 8)) conflicts]> summary in
  let summary :=
    <["medium_severity" :=
        count_sev (λ v, bool_decide (5 ≤ v) && bool_decide (v < 8)) conflicts]> summary in
  <["low_severity" := count_sev (λ v, bool_decide (v < 5)) conflicts]> summary.

End ConflictResolver.

(** ** scheduler.py: the conflict entry point of GIUScheduler *)

Module GIUScheduler.
Import ConflictResolver.

(** [ConflictResolver.suggest_manual_resolutions]: a dict from
    ["conflict_{i}_{type}"] to suggestions, kept as the list of its items.
    ([assignments[0]] of a conflict without assignments raises; the
    detectors never build one.) *)
Definition manual_item (i : nat) (conflict : ConflictInfo)
    : nat * string * list Suggestion :=
  let extra :=
    match ci_assignments conflict with
    | [] => []
    | a :: _ =>
        if decide (conflict_type conflict = "ta_double_booking") then
          [SugIncreaseAvailability (ta_name (ta a));
           SugReviewTiming
             (list_to_set ((λ a, course_name (course a)) <$> ci_assignments conflict));
           SugMoveCourses]
        else if decide (conflict_type conflict = "overcapacity") then
          [SugHire (ta_name (ta a)); SugReviewLimit (ta_name (ta a));
           SugUnderutilized]
        else []
    end in
  (i, conflict_type conflict, resolution_suggestions conflict ++ extra).

Definition suggest_manual_resolutions (conflicts : list ConflictInfo)
    : list (nat * string * list Suggestion) :=
  imap manual_item conflicts.

Definition resolve_conflicts (st : Store) (result : SchedulingResult)
    (auto_resolve : bool) : SchedulingResult :=
  if success result then result else
  let conflicts := detect_all_conflicts (assignments (global_schedule result)) in
  if auto_resolve then
    let '(resolved_assignments, resolution_messages) :=
      resolve_conflicts_automatically st conflicts in
    let resolved_schedule :=
      mkGlobalSchedule (courses (global_schedule result)) resolved_assignments in
    let remaining_conflicts := detect_conflicts resolved_assignments in
    mkResult resolved_schedule
             (bool_decide (remaining_conflicts = [])
              && bool_decide (unassigned_slots result = []))
             (message result ++ resolution_messages)
             (unassigned_slots result)
             (policy_violations result)
  else
    mkResult (global_schedule result) false
             (message result ++ [MsgConflictsDetected (length conflicts)])
             (unassigned_slots result)
             (policy_violations result
              ++ [MsgManualSuggestions (suggest_manual_resolutions conflicts)]).

End GIUScheduler.

(** ** workload_balancer.py: the transfer of one assignment *)

Module WorkloadBalancer.

Definition _can_transfer_assignment (policies : SchedulingPolicies) (st : Store)
    (assignment : ScheduleAssignment) (target_ta : TA) : bool :=
  if negb (is_available_for_slot st target_ta (slot assignment)) then false
  else if bool_decide (get_remaining_capacity st target_ta
                       < duration (slot assignment)) then false
  else
    let temp_assignments :=
      default [] (current_assignments st target_ta !! course_id (course assignment))
      ++ [slot assignment] in
    (PolicyValidator.validate_assignment policies target_ta (course assignment)
       temp_assignments).1.

(** The loop over [all_assignments]: the first entry with the TA id, the
    slot and the course id of [assignment] is replaced by a new assignment
    object for the target TA. *)
Fixpoint replace_first (fresh : nat) (assignment : ScheduleAssignment)
    (target_ta : TA) (l : list ScheduleAssignment) : list ScheduleAssignment :=
  match l with
  | [] => []
  | a :: l' =>
      if bool_decide (ta_id (ta a) = ta_id (ta assignment))
         && bool_decide (slot a = slot assignment)
         && bool_decide (course_id (course a) = course_id (course assignment))
      then mkAssignment fresh target_ta (slot assignment) (course assignment) :: l'
      else a :: replace_first fresh assignment target_ta l'
  end.

(** [all_assignments] is updated in place and both TAs' working sets are
    written; the result is the new store and the new list.  [fresh] is the
    identity of the assignment object created.  ([list.remove] raises when
    the slot is absent and the exception is swallowed.) *)
Definition _transfer_assignment (fresh : nat) (st : Store)
    (assignment : ScheduleAssignment) (target_ta : TA)
    (all_assignments : list ScheduleAssignment)
    : Store * list ScheduleAssignment :=
  let cid := course_id (course assignment) in
  let st1 :=
    set_assignments st target_ta cid
      (default [] (current_assignments st target_ta !! cid) ++ [slot assignment]) in
  let st2 :=
    match current_assignments st1 (ta assignment) !! cid with
    | Some slots =>
        set_assignments st1 (ta assignment) cid (Py.remove (slot assignment) slots)
    | None => st1
    end in
  (st2, replace_first fresh assignment target_ta all_assignments).

End WorkloadBalancer.

(** ** backend/simple_main.py: the backtracking driver

    The driver is the body of [simple_fallback_schedule] from the constraint
    functions on.  Its inputs are the request (time slots, policies, the
    first course id), the TA dicts loaded for the request and the course
    name.  Two things it reads are not functions of those inputs and are
    parameters of the embedding: the generator behind [random.randint] and
    [random.seed]/[random.shuffle], and the clock behind [time.time]. *)

Module SimpleMain.

Definition lower_ascii (c : Ascii.ascii) : Ascii.ascii :=
  let n := Ascii.nat_of_ascii c in
  if bool_decide (65 ≤ n)%nat && bool_decide (n ≤ 90)%nat
  then Ascii.ascii_of_nat (n + 32) else c.

(** [str.lower], on ASCII *)
Fixpoint lower (s : string) : string :=
  match s with
  | EmptyString => EmptyString
  | String c s' => String (lower_ascii c) (lower s')
  end.

Record TimeSlotModel := mkTimeSlotModel {
  day : string;
  slot : Z;
  type : string;
  tutorial_number : option Z;
  lab_number : option Z
}.

(** A blocked-slot dict; an absent key reads as [""] or [0]. *)
Record BlockedSlot := mkBlocked {
  blocked_day : string;
  blocked_slot_number : Z
}.

Record Allocation := mkAllocation {
  alloc_course_id : Z;
  allocated_hours : Z
}.

(** The TA dict built from the database row.  The keys the driver never
    reads ([email], [skills], [notes], [total_allocated_hours]) are left
    out; the dict has no weekly-hours key. *)
Record TAd := mkTAd {
  t_id : Z;
  t_name : string;
  blocked_slots : list BlockedSlot;
  day_off : option string;
  premasters : bool;
  course_allocations : list Allocation
}.

(** The assignment dict [test_assignment]. *)
Record AssignmentD := mkAssignmentD {
  a_ta_name : string;
  a_course_name : string;
  a_day : string;
  a_slot_number : Z;
  a_slot_type : string;
  a_tutorial_number : option Z;
  a_lab_number : option Z;
  a_duration : Z
}.

#[global] Instance TimeSlotModel_eq_dec : EqDecision TimeSlotModel.
Proof. solve_decision. Defined.

#[global] Instance BlockedSlot_eq_dec : EqDecision BlockedSlot.
Proof. solve_decision. Defined.

#[global] Instance Allocation_eq_dec : EqDecision Allocation.
Proof. solve_decision. Defined.

#[global] Instance TAd_eq_dec : EqDecision TAd.
Proof. solve_decision. Defined.

#[global] Instance AssignmentD_eq_dec : EqDecision AssignmentD.
Proof. solve_decision. Defined.

(** Truth value of an [Optional[int]] and of an [Optional[str]]. *)
Definition truthy (n : option Z) : bool :=
  match n with Some k => negb (bool_decide (k = 0)) | None => false end.

Definition truthy_str (s : option string) : bool :=
  match s with Some k => negb (bool_decide (k = EmptyString)) | None => false end.

Section Driver.
Variable policies : SchedulingPolicies.
Variable ta_list : list TAd.
Variable request_course_id : Z.
Variable course_data_name : string.

Definition is_premasters_violation (t : TAd) (d : string) (n : Z) : bool :=
  if negb (premasters t) then false
  else if decide (lower d = "saturday") then negb (bool_decide (n = 1 ∨ n = 2))
  else false.

Definition by_id (tid : Z) : option TAd :=
  List.find (λ t, bool_decide (t_id t = tid)) ta_list.

Definition by_name (n : string) : option TAd :=
  List.find (λ t, bool_decide (t_name t = n)) ta_list.

Definition count_for (tid : Z) (p : AssignmentD → bool)
    (current : list AssignmentD) : Z :=
  match by_id tid with
  | Some t =>
      Py.Zlength
        (filter (λ a, (bool_decide (a_ta_name a = t_name t) && p a) = true) current)
  | None => 0
  end.

Definition get_ta_workload (tid : Z) (current : list AssignmentD) : Z :=
  count_for tid (λ _, true) current.

Definition get_ta_tutorials (tid : Z) (current : list AssignmentD) : Z :=
  count_for tid (λ a, bool_decide (a_slot_type a = "tutorial")) current.

Definition get_ta_labs (tid : Z) (current : list AssignmentD) : Z :=
  count_for tid (λ a, bool_decide (a_slot_type a = "lab")) current.

Definition get_ta_hours_for_course (tid cid : Z) : Z :=
  match by_id tid with
  | Some t =>
      match List.find (λ al, bool_decide (alloc_course_id al = cid))
                      (course_allocations t) with
      | Some al => allocated_hours al
      | None => 0
      end
  | None => 0
  end.

(** The course id is not read: the hours of every assignment of the TA
    are added up. *)
Definition get_ta_current_hours_for_course (tid cid : Z)
    (current : list AssignmentD) : Z :=
  match by_id tid with
  | Some t =>
      Py.sumZ (a_duration <$> filter (λ a, a_ta_name a = t_name t) current)
  | None => 0
  end.

Definition exceeds_hour_allocation (t : TAd) (slot_req : TimeSlotModel)
    (current : list AssignmentD) : bool :=
  let allocated := get_ta_hours_for_course (t_id t) request_course_id in
  if decide (allocated = 0) then false else
  let current_hours :=
    get_ta_current_hours_for_course (t_id t) request_course_id current in
  let slot_duration := 2 in
  bool_decide (current_hours + slot_duration > allocated).

Definition violates_tutorial_lab_independence (t : TAd) (slot_req : TimeSlotModel)
    (current : list AssignmentD) : bool :=
  if negb (tutorial_lab_independence policies) then false else
  let ta_tutorials := get_ta_tutorials (t_id t) current in
  let ta_labs := get_ta_labs (t_id t) current in
  if bool_decide (type slot_req = "tutorial") && bool_decide (ta_labs > 0) then true
  else if bool_decide (type slot_req = "lab") && bool_decide (ta_tutorials > 0) then true
  else false.

Definition is_ta_already_assigned_to_slot (t : TAd) (slot_req : TimeSlotModel)
    (current : list AssignmentD) : bool :=
  existsb (λ a, bool_decide (a_ta_name a = t_name t)
                && bool_decide (lower (a_day a) = lower (day slot_req))
                && bool_decide (a_slot_number a = slot slot_req))
          current.

(** The result is [None] both when no TA is required and when the first
    matching assignment names a TA that is not in [ta_list]. *)
Definition check_tutorial_lab_number_matching (slot_req : TimeSlotModel)
    (current : list AssignmentD) : option TAd :=
  if negb (tutorial_lab_number_matching policies) then None
  else if bool_decide (type slot_req = "tutorial") && truthy (tutorial_number slot_req)
  then
    match List.find (λ a, bool_decide (a_slot_type a = "lab")
                          && bool_decide (a_lab_number a = tutorial_number slot_req))
                    current with
    | Some a => by_name (a_ta_name a)
    | None => None
    end
  else if bool_decide (type slot_req = "lab") && truthy (lab_number slot_req)
  then
    match List.find (λ a, bool_decide (a_slot_type a = "tutorial")
                          && bool_decide (a_tutorial_number a = lab_number slot_req))
                    current with
    | Some a => by_name (a_ta_name a)
    | None => None
    end
  else None.

Definition violates_tutorial_lab_number_matching (t : TAd) (slot_req : TimeSlotModel)
    (current : list AssignmentD) : bool :=
  if negb (tutorial_lab_number_matching policies) then false else
  match check_tutorial_lab_number_matching slot_req current with
  | Some required_ta => negb (bool_decide (t_id required_ta = t_id t))
  | None => false
  end.

Definition is_blocked (t : TAd) (slot_req : TimeSlotModel) : bool :=
  existsb (λ b, bool_decide (lower (blocked_day b) = lower (day slot_req))
                && bool_decide (blocked_slot_number b = slot slot_req))
          (blocked_slots t).

Definition on_day_off (t : TAd) (slot_req : TimeSlotModel) : bool :=
  truthy_str (day_off t)
  && bool_decide (lower (default EmptyString (day_off t)) = lower (day slot_req)).

(** The body of the loop of [get_all_candidate_tas_for_slot]: [None] when a
    [continue] is taken, the priority score otherwise. *)
Definition candidate_score (relax_constraints : bool) (slot_req : TimeSlotModel)
    (current : list AssignmentD) (t : TAd) : option Z :=
  if is_premasters_violation t (day slot_req) (slot slot_req) then None
  else if negb relax_constraints && is_blocked t slot_req then None
  else if negb relax_constraints && on_day_off t slot_req then None
  else if is_ta_already_assigned_to_slot t slot_req current then None
  else if exceeds_hour_allocation t slot_req current then None
  else if violates_tutorial_lab_independence t slot_req current then None
  else if violates_tutorial_lab_number_matching t slot_req current then None
  else
    let workload := get_ta_workload (t_id t) current in
    let tutorial_count := get_ta_tutorials (t_id t) current in
    let lab_count := get_ta_labs (t_id t) current in
    Some (if tutorial_lab_equal_count policies then
            if decide (type slot_req = "tutorial")
            then workload + Z.max 0 (tutorial_count - lab_count) * 2
            else workload + Z.max 0 (lab_count - tutorial_count) * 2
          else workload).

Definition get_all_candidate_tas_for_slot (slot_req : TimeSlotModel)
    (current : list AssignmentD) (available_tas : list TAd)
    (relax_constraints : bool) : list TAd :=
  let candidates :=
    omap (λ t, (λ score, (t, score))
                 <$> candidate_score relax_constraints slot_req current t)
         available_tas in
  fst <$> Py.sorted Z.leb snd candidates.

Definition test_assignment (slot_req : TimeSlotModel) (candidate_ta : TAd)
    : AssignmentD :=
  {| a_ta_name := t_name candidate_ta;
     a_course_name := course_data_name;
     a_day := day slot_req;
     a_slot_number := slot slot_req;
     a_slot_type := type slot_req;
     a_tutorial_number := tutorial_number slot_req;
     a_lab_number := lab_number slot_req;
     a_duration := 2 |}.

(** [random.seed(k); random.shuffle(l)] permutes [l] in a way fixed by
    [k]; [expired n] tells whether the [n]-th reading of the clock finds
    the 30 seconds used up. *)
Variable shuffle : Z → list TAd → list TAd.
Variable expired : nat → bool.

(** The candidate list of one call: strict, relaxed when the strict list
    is empty, shuffled when [variation_seed] is set ([0] stands for both
    falsy values, [0] and [None]). *)
Definition candidates_at (variation_seed : Z) (depth : Z)
    (slot_req : TimeSlotModel) (current : list AssignmentD) : list TAd :=
  let candidates := get_all_candidate_tas_for_slot slot_req current ta_list false in
  let candidates :=
    if decide (candidates = [])
    then get_all_candidate_tas_for_slot slot_req current ta_list true
    else candidates in
  if decide (candidates = []) then []
  else if decide (variation_seed = 0) then candidates
  else shuffle (variation_seed + depth) candidates.

(** The result is [(success, assignments, failed slots)]; the last
    component counts the readings of the clock. *)
Fixpoint intelligent_backtrack_assignment (max_depth variation_seed : Z)
    (slots_to_assign : list TimeSlotModel) (current : list AssignmentD)
    (depth : Z) (clock : nat) {struct slots_to_assign}
    : bool * list AssignmentD * list TimeSlotModel * nat :=
  if bool_decide (depth > max_depth) then (false, current, slots_to_assign, clock)
  else if expired clock then (false, current, slots_to_assign, S clock)
  else
    match slots_to_assign with
    | [] => (true, current, [], S clock)
    | slot_req :: remaining_slots =>
        (fix try (candidates : list TAd) (clock : nat) :=
           match candidates with
           | [] => (false, current, [slot_req], clock)
           | candidate_ta :: rest =>
               let '(ok, final_assignments, failed_slots, clock') :=
                 intelligent_backtrack_assignment max_depth variation_seed
                   remaining_slots (current ++ [test_assignment slot_req candidate_ta])
                   (depth + 1) clock in
               if ok then (true, final_assignments, failed_slots, clock')
               else try rest clock'
           end)
          (candidates_at variation_seed depth slot_req current) (S clock)
    end.

Record Schedule := mkSchedule {
  sched_success : bool;
  sched_assignments : list AssignmentD;
  sched_failed : list TimeSlotModel;
  stat_policy_violations : nat
}.

(** [simple_fallback_schedule] from the call of the driver to the schedule
    it stores.  [randint] is what [random.randint(1, 10000)] returns. *)
Definition simple_fallback_schedule (randint : Z) (time_slots : list TimeSlotModel)
    : Schedule :=
  let variation_seed := randint in
  let '(_, asg, failed_slot_reqs, _) :=
    intelligent_backtrack_assignment 50 variation_seed time_slots [] 0 0 in
  let policy_violations :=
    length (filter (λ a, match by_name (a_ta_name a) with
                         | Some t => is_premasters_violation t (a_day a) (a_slot_number a)
                         | None => false
                         end = true) asg) in
  let full :=
    bool_decide (time_slots = []) || bool_decide (length asg = length time_slots) in
  {| sched_success := full && bool_decide (policy_violations = 0%nat);
     sched_assignments := asg;
     sched_failed := failed_slot_reqs;
     stat_policy_violations := policy_violations |}.

End Driver.

End SimpleMain.

(** ** Notions used to state the properties *)

Module Claim.

(** The difficulty tuple of a course, and the lexicographic order on such
    tuples. *)
Definition difficulty_tuple (st : Store) (c : Course) : Qc * Z * Z :=
  (GlobalScheduler.difficulty_ratio st c,
   Py.Zlength (required_slots c),
   Py.Zlength (assigned_tas c)).

Definition lex_lt (x y : Qc * Z * Z) : Prop :=
  (x.1.1 < y.1.1)%Qc
  ∨ (x.1.1 = y.1.1 ∧ (x.1.2 < y.1.2 ∨ (x.1.2 = y.1.2 ∧ x.2 < y.2))).

Definition lex_le (x y : Qc * Z * Z) : Prop := lex_lt x y ∨ x = y.

(** The ratio as the specification words it: the divisor counts the
    assigned TAs who have room for one slot of the course, that is whose
    remaining capacity is at least the duration of a slot of the course
    (its first slot; two hours, the default duration, for a course without
    slots). *)
Definition one_slot_duration (c : Course) : Z :=
  match required_slots c with
  | s :: _ => duration s
  | [] => 2
  end.

Definition claimed_difficulty_ratio (st : Store) (c : Course) : Qc :=
  (Qc_of_Z (Py.Zlength (required_slots c))
   / Qc_of_Z (Z.max 1 (Py.Zlength
       (filter (λ t, (one_slot_duration c ≤ get_remaining_capacity st t)%Z)
               (assigned_tas c)))))%Qc.

Definition claimed_difficulty_tuple (st : Store) (c : Course) : Qc * Z * Z :=
  (claimed_difficulty_ratio st c,
   Py.Zlength (required_slots c),
   Py.Zlength (assigned_tas c)).

(** The time of a slot; a combination is free of parallel slots when no
    two of its slots are at the same time. *)
Definition time_key (s : TimeSlot) : Day * Z := (day s, slot_number s).

Definition parallel_free (slots : list TimeSlot) : Prop :=
  NoDup (time_key <$> slots).

(** The hours a schedule gives to the TA with a given id. *)
Definition assigned_hours (tid : string) (asg : list ScheduleAssignment) : Z :=
  slots_hours (slot <$> filter (λ a, ta_id (ta a) = tid) asg).

(** The slots a schedule gives to a TA in a course. *)
Definition slot_set (tid cid : string) (asg : list ScheduleAssignment)
    : list TimeSlot :=
  slot <$> filter (λ a, ta_id (ta a) = tid ∧ course_id (course a) = cid) asg.

(** The score of a combination as the specification words it: the sum of
    [max(0, 10 - preference_rank[slot])] over the slots, where a slot the TA
    gave no rank has no term, plus half the length. *)
Definition claimed_score (t : TA) (combo : list TimeSlot) : Qc :=
  (foldr Qcplus 0
     ((λ s, match preferred_slots t !! s with
            | Some preference_rank => Qc_of_Z (Z.max 0 (10 - preference_rank))
            | None => 0
            end) <$> combo)
   + Qc_of_Z (Py.Zlength combo) * CourseScheduler.half)%Qc.

(** The points of one slot in the score the code computes. *)
Definition slot_points (t : TA) (s : TimeSlot) : Z :=
  match preferred_slots t !! s with
  | Some preference_rank => Z.max 0 (10 - preference_rank)
  | None => 5
  end.

(** The time a TA is booked by an assignment. *)
Definition booking (a : ScheduleAssignment) : string * Day * Z :=
  (ta_id (ta a), day (slot a), slot_number (slot a)).

(** The entry of a key in a dict kept as an association list. *)
Fixpoint assoc_lookup {K V} `{EqDecision K} (k : K) (g : list (K * V)) : option V :=
  match g with
  | [] => None
  | (k', v) :: g' => if decide (k' = k) then Some v else assoc_lookup k g'
  end.

End Claim.

(** ** Example inputs *)

Module Example.

Definition sun1_tut : TimeSlot := mkSlot SUNDAY 1 TUTORIAL 2.
Definition mon1_lab : TimeSlot := mkSlot MONDAY 1 LAB 2.
Definition mon2_tut : TimeSlot := mkSlot MONDAY 2 TUTORIAL 2.
Definition tue2_lab : TimeSlot := mkSlot TUESDAY 2 LAB 2.

Definition no_policies : SchedulingPolicies := mkPolicies false false false false.
Definition fairness_only : SchedulingPolicies := mkPolicies false false false true.
Definition both_policies : SchedulingPolicies := mkPolicies false true true false.

(** Scenario 1 of the specification: one course with two slots and one TA
    with ten hours who is available for both. *)
Definition ta_ten : TA :=
  mkTA 0 "ta1" "TA One" 10 {[sun1_tut; mon1_lab]} ∅.

Definition course_two : Course :=
  mkCourse "c1" "Course One" [sun1_tut; mon1_lab] [ta_ten].

(** The same course with a TA who has two hours a week. *)
Definition ta_two : TA :=
  mkTA 0 "ta1" "TA One" 2 {[sun1_tut; mon1_lab]} ∅.

Definition course_two_small : Course :=
  mkCourse "c1" "Course One" [sun1_tut; mon1_lab] [ta_two].

(** A course with two tutorial/lab pairs and a TA available for all four. *)
Definition ta_four : TA :=
  mkTA 0 "ta1" "TA One" 10 {[sun1_tut; mon1_lab; mon2_tut; tue2_lab]} ∅.

Definition course_four : Course :=
  mkCourse "c1" "Course One" [sun1_tut; mon1_lab; mon2_tut; tue2_lab] [ta_four].

(** A course with a tutorial/lab pair and a second tutorial.  The first TA
    can take the pair, the second the lab and the second tutorial. *)
Definition equal_count_only : SchedulingPolicies := mkPolicies false true false false.

Definition ta_pair : TA := mkTA 0 "ta1" "TA One" 10 {[sun1_tut; mon1_lab]} ∅.
Definition ta_late : TA := mkTA 1 "ta2" "TA Two" 10 {[mon1_lab; mon2_tut]} ∅.

Definition course_three : Course :=
  mkCourse "c1" "Course One" [sun1_tut; mon1_lab; mon2_tut] [ta_pair; ta_late].

(** A course with a slot only one TA can serve ([sun1_tut]) and a slot
    both TAs can serve ([mon1_lab]). *)
Definition ta_both : TA := mkTA 0 "ta1" "TA One" 10 {[sun1_tut; mon1_lab]} ∅.
Definition ta_lab : TA := mkTA 1 "ta2" "TA Two" 10 {[mon1_lab]} ∅.

Definition course_scarce : Course :=
  mkCourse "c1" "Course One" [sun1_tut; mon1_lab] [ta_both; ta_lab].

(** A TA with two hours who ranks [sun1_tut] seventh and does not rank
    [mon1_lab]. *)
Definition ta_ranked : TA :=
  mkTA 0 "ta1" "TA One" 2 {[sun1_tut; mon1_lab]} {[sun1_tut := 7]}.

Definition course_ranked : Course :=
  mkCourse "c1" "Course One" [sun1_tut; mon1_lab] [ta_ranked].

(** A course of five slots: the first TA is available for four of them,
    the second for the fifth only. *)
Definition wed3_tut : TimeSlot := mkSlot WEDNESDAY 3 TUTORIAL 2.

Definition ta_wide : TA :=
  mkTA 0 "ta1" "TA One" 10 {[sun1_tut; mon1_lab; mon2_tut; tue2_lab]} ∅.
Definition ta_narrow : TA := mkTA 1 "ta2" "TA Two" 10 {[wed3_tut]} ∅.

Definition course_five : Course :=
  mkCourse "c1" "Course One" [sun1_tut; mon1_lab; mon2_tut; tue2_lab; wed3_tut]
           [ta_wide; ta_narrow].

(** The course of the number-matching test of [policy_test.py]: tutorial
    and lab number 1 on Sunday, tutorial and lab number 2 on Monday, and a
    TA with ten hours who is available for all four. *)
Definition sun1_lab : TimeSlot := mkSlot SUNDAY 1 LAB 2.
Definition mon2_lab : TimeSlot := mkSlot MONDAY 2 LAB 2.

Definition ta_matching : TA :=
  mkTA 0 "ta_001" "Matching TA" 10 {[sun1_tut; sun1_lab; mon2_tut; mon2_lab]} ∅.

Definition course_matching : Course :=
  mkCourse "match_course" "Number Matching Course"
           [sun1_tut; sun1_lab; mon2_tut; mon2_lab] [ta_matching].

(** Two courses with their own TAs.  The first has two slots of four
    hours and a TA with three hours a week beside one with ten; the second
    has three slots of two hours and two TAs with ten hours. *)
Definition sat1_tut_long : TimeSlot := mkSlot SATURDAY 1 TUTORIAL 4.
Definition sat3_lab_long : TimeSlot := mkSlot SATURDAY 3 LAB 4.

Definition ta_long_ten : TA :=
  mkTA 0 "ta1" "TA One" 10 {[sat1_tut_long; sat3_lab_long]} ∅.
Definition ta_long_three : TA :=
  mkTA 1 "ta2" "TA Two" 3 {[sat1_tut_long; sat3_lab_long]} ∅.

Definition course_long : Course :=
  mkCourse "c1" "Course One" [sat1_tut_long; sat3_lab_long]
           [ta_long_ten; ta_long_three].

Definition ta_short_a : TA :=
  mkTA 2 "ta3" "TA Three" 10 {[sun1_tut; mon1_lab; mon2_tut]} ∅.
Definition ta_short_b : TA :=
  mkTA 3 "ta4" "TA Four" 10 {[sun1_tut; mon1_lab; mon2_tut]} ∅.

Definition course_short : Course :=
  mkCourse "c2" "Course Two" [sun1_tut; mon1_lab; mon2_tut]
           [ta_short_a; ta_short_b].

End Example.

Module Runs.
Import Example.

(** The greedy run of scenario 1, which succeeds. *)
Definition trivial_run : Store * SchedulingResult :=
  GlobalScheduler.schedule_all_courses no_policies ∅ [course_two].

Definition trivial_first : ScheduleAssignment :=
  mkAssignment 0 ta_ten sun1_tut course_two.

Definition trivial_second : ScheduleAssignment :=
  mkAssignment 1 ta_ten mon1_lab course_two.

(** The greedy run with the two-hour TA: one slot stays unassigned. *)
Definition short_run : Store * SchedulingResult :=
  GlobalScheduler.schedule_all_courses no_policies ∅ [course_two_small].

Definition short_first : ScheduleAssignment :=
  mkAssignment 0 ta_two sun1_tut course_two_small.

(** The fairness run with the two-hour TA. *)
Definition fairness_run : Store * SchedulingResult :=
  GlobalScheduler.schedule_all_courses fairness_only ∅ [course_two_small].

(** The greedy run of [course_three] under the equal-count policy. *)
Definition equal_count_run : Store * SchedulingResult :=
  GlobalScheduler.schedule_all_courses equal_count_only ∅ [course_three].

(** The fairness run of [course_scarce]. *)
Definition scarce_run : Store * SchedulingResult :=
  GlobalScheduler.schedule_all_courses fairness_only ∅ [course_scarce].

(** The greedy run of [course_ranked]. *)
Definition ranked_run : Store * SchedulingResult :=
  GlobalScheduler.schedule_all_courses no_policies ∅ [course_ranked].

(** The fairness run of [course_five]: eight hours for the first TA, two
    for the second. *)
Definition uneven_run : Store * SchedulingResult :=
  GlobalScheduler.schedule_all_courses fairness_only ∅ [course_five].

(** The greedy run of the two courses [course_long] and [course_short],
    given in this order. *)
Definition long_short_run : Store * SchedulingResult :=
  GlobalScheduler.schedule_all_courses no_policies ∅ [course_long; course_short].

End Runs.

Module DriverExample.
Import SimpleMain.

(** A request for one Sunday tutorial and a single TA whose day off is
    Sunday. *)
Definition sunday_tutorial : TimeSlotModel :=
  mkTimeSlotModel "Sunday" 1 "tutorial" (Some 1) None.

Definition ta_sunday_off : TAd :=
  mkTAd 1 "Amal" [] (Some "Sunday") false [].

(** Two TAs without restrictions. *)
Definition ta_a : TAd := mkTAd 1 "Amal" [] None false [].
Definition ta_b : TAd := mkTAd 2 "Basil" [] None false [].

Definition keep_order (seed : Z) (l : list TAd) : list TAd := l.
Definition reverse_order (seed : Z) (l : list TAd) : list TAd := rev l.
Definition never_expired (n : nat) : bool := false.

(** The schedule stored for the request with the TA on day off: the seed
    drawn is 1, and a list of one candidate has one order. *)
Definition day_off_schedule : Schedule :=
  simple_fallback_schedule Example.no_policies [ta_sunday_off] 1 "Course One"
    keep_order never_expired 1 [sunday_tutorial].

(** A request for every slot of the week, and one TA. *)
Definition whole_week : list TimeSlotModel :=
  d ← ["Saturday"; "Sunday"; "Monday"; "Tuesday"; "Wednesday"; "Thursday"];
  n ← [1; 2; 3; 4; 5];
  [mkTimeSlotModel d n "tutorial" None None].

Definition whole_week_schedule : Schedule :=
  simple_fallback_schedule Example.no_policies [ta_a] 1 "Course One"
    keep_order never_expired 1 whole_week.

End DriverExample.

(** * Properties *)

(** ** Facts about the built-ins *)

Section PyFacts.
Context {A : Type}.
Implicit Types (l c : list A) (r : nat).

Lemma combinations_spec l r c :
  In c (Py.combinations l r) ↔ c `sublist_of` l ∧ length c = r.
Proof.
  revert r c. induction l as [|x l IH]; intros r c.
  - destruct r as [|r]; simpl.
    + split.
      * intros [<-|[]]. split; [constructor | done].
      * intros [_ Hlen]. left. by destruct c.
    + split; [done|]. intros [Hs Hlen]. apply sublist_nil_r in Hs. by subst.
  - destruct r as [|r]; simpl.
    + split.
      * intros [<-|[]]. split; [apply sublist_nil_l | done].
      * intros [_ Hlen]. left. by destruct c.
    + rewrite in_app_iff, in_map_iff. split.
      * intros [(c' & <- & Hc')|Hc].
        -- apply IH in Hc' as [Hs Hlen]. split; [by constructor | simpl; lia].
        -- apply IH in Hc as [Hs Hlen]. split; [by constructor | done].
      * intros [Hs Hlen]. apply sublist_cons_r in Hs as [Hs|(c' & -> & Hs)].
        -- right. apply IH. done.
        -- left. exists c'. split; [done|]. apply IH. simpl in Hlen. split; [done|lia].
Qed.

Lemma combinations_length l r c : In c (Py.combinations l r) → length c = r.
Proof. intros H. by apply combinations_spec in H as [_ ?]. Qed.

Lemma combinations_subset l r c x : In c (Py.combinations l r) → x ∈ c → x ∈ l.
Proof.
  intros H Hx. apply combinations_spec in H as [Hs _].
  eapply sublist_subseteq; eauto.
Qed.

End PyFacts.

Lemma range_spec a b i : In i (Py.range a b) ↔ a ≤ i < b.
Proof.
  unfold Py.range. rewrite in_map_iff. split.
  - intros (n & <- & Hn). apply in_seq in Hn. lia.
  - intros Hi. exists (Z.to_nat (i - a)). split; [lia|]. apply in_seq. lia.
Qed.

(** ** The policy validator *)

Section ValidatorFacts.
Import PolicyValidator.

Lemma equal_count_nil_iff slots :
  _check_equal_count_policy slots = []
  ↔ length (filter (λ s, is_tutorial s = true) slots)
    = length (filter (λ s, is_lab s = true) slots).
Proof.
  unfold _check_equal_count_policy. case_decide; split; done.
Qed.

Lemma number_matching_nil_iff slots :
  _check_number_matching_policy slots = []
  ↔ tutorial_numbers slots = lab_numbers slots.
Proof.
  unfold _check_number_matching_policy.
  split.
  - intros H. apply app_eq_nil in H as [H1 H2].
    destruct (decide (tutorial_numbers slots ∖ lab_numbers slots ≠ ∅)) as [|E1]; [done|].
    destruct (decide (lab_numbers slots ∖ tutorial_numbers slots ≠ ∅)) as [|E2]; [done|].
    apply dec_stable in E1. apply dec_stable in E2.
    apply set_eq. intros x. split; intros Hx.
    + destruct (decide (x ∈ lab_numbers slots)) as [|Hn]; [done|].
      exfalso. eapply (not_elem_of_empty (C:=gset Z) x). rewrite <- E1.
      by apply elem_of_difference.
    + destruct (decide (x ∈ tutorial_numbers slots)) as [|Hn]; [done|].
      exfalso. eapply (not_elem_of_empty (C:=gset Z) x). rewrite <- E2.
      by apply elem_of_difference.
  - intros ->. rewrite !difference_diag_L.
    by rewrite !decide_False by (intros ?; done).
Qed.

Lemma validate_assignment_nil policies t c :
  validate_assignment policies t c [] = (true, []).
Proof.
  unfold validate_assignment.
  destruct (tutorial_lab_independence policies),
    (tutorial_lab_equal_count policies),
    (tutorial_lab_number_matching policies); reflexivity.
Qed.

Lemma is_lab_not_tutorial s : is_lab s = negb (is_tutorial s).
Proof. unfold is_lab, is_tutorial. by destruct (slot_type s). Qed.

Lemma independent_nonempty available max_slots :
  Forall (λ combo, combo ≠ []) (_generate_independent_combinations available max_slots).
Proof.
  apply Forall_forall. intros combo Hin. apply list_elem_of_In in Hin.
  unfold _generate_independent_combinations in Hin.
  apply in_flat_map in Hin as (r & Hr & Hc).
  apply range_spec in Hr. apply list_elem_of_In, list_elem_of_filter in Hc as [_ Hc].
  apply list_elem_of_In, combinations_length in Hc.
  intros ->. simpl in Hc. lia.
Qed.

Lemma equal_count_shape available max_slots combo :
  In combo (_generate_equal_count_combinations available max_slots)
  ↔ ∃ tc lc,
      combo = tc ++ lc
      ∧ tc `sublist_of` filter (λ s, is_tutorial s = true) available
      ∧ lc `sublist_of` filter (λ s, is_lab s = true) available
      ∧ length tc = length lc ∧ (1 ≤ length tc)%nat
      ∧ Py.Zlength combo ≤ max_slots
      ∧ _has_parallel_conflicts combo = false.
Proof.
  unfold _generate_equal_count_combinations.
  rewrite in_flat_map. split.
  - intros (pc & Hpc & H). apply range_spec in Hpc.
    apply in_flat_map in H as (tc & Htc & H).
    apply in_flat_map in H as (lc & Hlc & H).
    apply combinations_spec in Htc as [Hts Htl].
    apply combinations_spec in Hlc as [Hls Hll].
    destruct (bool_decide (Py.Zlength (tc ++ lc) ≤ max_slots)) eqn:E1; simpl in H; [|done].
    destruct (_has_parallel_conflicts (tc ++ lc)) eqn:E2; simpl in H; [done|].
    destruct H as [<-|[]].
    exists tc, lc. apply bool_decide_eq_true in E1.
    repeat split; try done; lia.
  - intros (tc & lc & -> & Hts & Hls & Hlen & Hpos & Hmax & Hpar).
    exists (Z.of_nat (length tc)). split.
    + apply range_spec. unfold Py.Zlength in *.
      apply sublist_length in Hts, Hls. rewrite length_app in Hmax. 
      split; [lia|].
      assert (Z.of_nat (length tc) ≤ max_slots `div` 2).
      { apply Z.div_le_lower_bound; lia. }
      lia.
    + apply in_flat_map. exists tc. split.
      { apply combinations_spec. split; [done|lia]. }
      apply in_flat_map. exists lc. split.
      { apply combinations_spec. split; [done|lia]. }
      rewrite bool_decide_eq_true_2 by done. rewrite Hpar. simpl. by left.
Qed.

Lemma filter_sublist_all {A} (P : A → Prop) `{∀ x, Decision (P x)} (c l : list A) :
  c `sublist_of` filter P l → Forall P c.
Proof.
  intros Hs. apply Forall_forall. intros x Hx.
  eapply sublist_subseteq in Hx; [|done].
  by apply list_elem_of_filter in Hx as [? _].
Qed.

Lemma filter_all {A} (P : A → Prop) `{∀ x, Decision (P x)} (l : list A) :
  Forall P l → filter P l = l.
Proof.
  induction 1 as [|x l Hx _ IH]; [done|].
  rewrite filter_cons_True by done. by rewrite IH.
Qed.

Lemma filter_none {A} (P : A → Prop) `{∀ x, Decision (P x)} (l : list A) :
  Forall (λ x, ¬ P x) l → filter P l = [].
Proof.
  induction 1 as [|x l Hx _ IH]; [done|].
  rewrite filter_cons_False by done. exact IH.
Qed.

Lemma equal_count_counts available max_slots combo :
  In combo (_generate_equal_count_combinations available max_slots)
  → _check_equal_count_policy combo = [] ∧ combo ≠ [].
Proof.
  intros H. apply equal_count_shape in H
    as (tc & lc & -> & Hts & Hls & Hlen & Hpos & _ & _).
  apply filter_sublist_all in Hts, Hls. split.
  - apply equal_count_nil_iff. rewrite !filter_app.
    rewrite (filter_all (λ s, is_tutorial s = true) tc) by done.
    rewrite (filter_all (λ s, is_lab s = true) lc) by done.
    rewrite (filter_none (λ s, is_tutorial s = true) lc).
    2:{ eapply Forall_impl; [exact Hls|]. intros s Hs. cbv beta in *.
        rewrite is_lab_not_tutorial in Hs. by destruct (is_tutorial s). }
    rewrite (filter_none (λ s, is_lab s = true) tc).
    2:{ eapply Forall_impl; [exact Hts|]. intros s Hs. cbv beta in *.
        rewrite is_lab_not_tutorial. by rewrite Hs. }
    rewrite app_nil_r. simpl. done.
  - destruct tc; simpl in *; [lia|done].
Qed.

(** [_has_parallel_conflicts] answers whether two slots of the list are at
    the same time (day and slot number). *)
Lemma parallel_from_spec slot_keys slots :
  parallel_from slot_keys slots = false
  ↔ NoDup (Claim.time_key <$> slots)
    ∧ ∀ s, s ∈ slots → Claim.time_key s ∉ slot_keys.
Proof.
  revert slot_keys. induction slots as [|s slots IH]; intros slot_keys.
  - split; [|done]. intros _. split; [constructor|]. by intros s ?%elem_of_nil.
  - cbn [parallel_from fmap list_fmap]. fold (Claim.time_key s).
    destruct (bool_decide_reflect (Claim.time_key s ∈ slot_keys)) as [Hin|Hnin].
    + split; [done|]. intros [_ H]. destruct (H s); [by left|done].
    + rewrite IH, NoDup_cons, list_elem_of_fmap. split.
      * intros [Hnd Hall]. split; [split; [|done]|].
        -- intros (s' & Hk & Hs'). apply (Hall s' Hs').
           apply elem_of_union_l, elem_of_singleton. done.
        -- intros s' [->|Hs']%elem_of_cons; [done|].
           intros Hk. apply (Hall s' Hs'). by apply elem_of_union_r.
      * intros [[Hs Hnd] Hall]. split; [done|].
        intros s' Hs' [Hk%elem_of_singleton|Hk]%elem_of_union.
        -- apply Hs. by exists s'.
        -- apply (Hall s'); [by right|done].
Qed.

Lemma has_parallel_conflicts_spec slots :
  _has_parallel_conflicts slots = false ↔ Claim.parallel_free slots.
Proof.
  unfold _has_parallel_conflicts, Claim.parallel_free. rewrite parallel_from_spec.
  split; [by intros [? _]|]. intros H. split; [done|].
  intros s _. apply not_elem_of_empty.
Qed.

End ValidatorFacts.

Section ValidatorClaims.
Import PolicyValidator.

Lemma number_matching_nonempty available max_slots :
  Forall (λ combo, combo ≠ [])
         (_generate_number_matching_combinations available max_slots).
Proof.
  apply Forall_forall. intros combo Hin. apply list_elem_of_In in Hin.
  unfold _generate_number_matching_combinations in Hin.
  set (tutorials := by_number (filter (λ s, is_tutorial s = true) available)) in *.
  set (labs := by_number (filter (λ s, is_lab s = true) available)) in *.
  destruct (decide (dom tutorials ∩ dom labs = ∅)) as [|_]; [done|].
  apply in_flat_map in Hin as (pc & Hpc & Hin).
  apply range_spec in Hpc.
  apply in_flat_map in Hin as (numbers & Hnum & Hin).
  destruct (bool_decide _ && negb _); [|done].
  destruct Hin as [<-|[]].
  pose proof (combinations_length _ _ _ Hnum) as Hlen.
  destruct numbers as [|n numbers]; simpl in Hlen; [lia|].
  assert (n ∈ dom tutorials ∩ dom labs) as Hn.
  { apply elem_of_elements.
    rewrite <- (merge_sort_Permutation Z.le (elements (dom tutorials ∩ dom labs))).
    eapply combinations_subset; [exact Hnum|]. by left. }
  apply elem_of_intersection in Hn as [[tu Ht]%elem_of_dom [la Hl]%elem_of_dom].
  simpl. rewrite Ht, Hl. done.
Qed.

Lemma valid_combinations_nonempty policies st t c max_slots :
  Forall (λ combo, combo ≠ [])
         (get_valid_slot_combinations policies st t c max_slots).
Proof.
  unfold get_valid_slot_combinations.
  case_decide; [constructor|].
  destruct (tutorial_lab_independence policies); [apply independent_nonempty|].
  destruct (tutorial_lab_equal_count policies),
    (tutorial_lab_number_matching policies); simpl.
  - apply Forall_forall. intros combo [_ Hc]%list_elem_of_filter.
    apply list_elem_of_In, equal_count_counts in Hc. tauto.
  - apply Forall_forall. intros combo Hc%list_elem_of_In.
    apply equal_count_counts in Hc. tauto.
  - apply number_matching_nonempty.
  - apply independent_nonempty.
Qed.

(** C10: the empty slot list passes validation under every policy
    combination, for every TA and course, and no combination returned by
    [get_valid_slot_combinations] is empty. *)
Theorem C10_empty_slot_set policies st t c max_slots :
  validate_assignment policies t c [] = (true, [])
  ∧ Forall (λ combo, combo ≠ [])
           (get_valid_slot_combinations policies st t c max_slots).
Proof.
  split; [apply validate_assignment_nil | apply valid_combinations_nonempty].
Qed.

(** C2 (amended): with independence off and both equal-count and
    number-matching on, the combinations returned are exactly the
    equal-count combinations that pass number matching, never the union.
    Every returned combination has as many tutorials as labs, the same set
    of tutorial and lab slot numbers, and no two slots at the same time
    (day and slot number); and every choice of equally many available
    tutorials and labs within [max_slots], with matching numbers and with
    no two slots at the same time, is returned. *)
Theorem C2_equal_count_and_number_matching policies st t c max_slots :
  tutorial_lab_independence policies = false →
  tutorial_lab_equal_count policies = true →
  tutorial_lab_number_matching policies = true →
  let available :=
    filter (λ s, is_available_for_slot st t s = true) (required_slots c) in
  let result := get_valid_slot_combinations policies st t c max_slots in
  (∀ combo,
     combo ∈ result
     ↔ combo ∈ _generate_equal_count_combinations available max_slots
       ∧ tutorial_numbers combo = lab_numbers combo)
  ∧ (∀ combo,
       combo ∈ result →
       length (filter (λ s, slot_type s = TUTORIAL) combo)
       = length (filter (λ s, slot_type s = LAB) combo)
       ∧ tutorial_numbers combo = lab_numbers combo
       ∧ Claim.parallel_free combo)
  ∧ (∀ tutorial_combo lab_combo,
       tutorial_combo `sublist_of` filter (λ s, slot_type s = TUTORIAL) available →
       lab_combo `sublist_of` filter (λ s, slot_type s = LAB) available →
       length tutorial_combo = length lab_combo →
       (1 ≤ length tutorial_combo)%nat →
       Z.of_nat (length (tutorial_combo ++ lab_combo)) ≤ max_slots →
       Claim.parallel_free (tutorial_combo ++ lab_combo) →
       tutorial_numbers (tutorial_combo ++ lab_combo)
       = lab_numbers (tutorial_combo ++ lab_combo) →
       tutorial_combo ++ lab_combo ∈ result).
Proof.
  intros Hind Heq Hnm available result.
  assert (∀ combo,
     combo ∈ result
     ↔ combo ∈ _generate_equal_count_combinations available max_slots
       ∧ tutorial_numbers combo = lab_numbers combo) as Hchar.
  { intros combo. subst result. unfold get_valid_slot_combinations.
    fold available. rewrite Hind, Heq, Hnm. simpl.
    case_decide as Hav.
    - split; [by intros ?%elem_of_nil|]. intros [Hc _].
      apply list_elem_of_In, equal_count_shape in Hc
        as (tc & lc & _ & Hts & _ & _ & Hpos & _).
      rewrite Hav in Hts. simpl in Hts. apply sublist_nil_r in Hts. subst. simpl in Hpos. lia.
    - rewrite list_elem_of_filter, number_matching_nil_iff. tauto. }
  split; [exact Hchar|]. split.
  - intros combo [Hc Hm]%Hchar. apply list_elem_of_In in Hc.
    split; [|split; [done|]].
    + apply equal_count_counts in Hc as [Hc _].
      apply equal_count_nil_iff in Hc.
      etrans; [etrans; [|exact Hc]|]; f_equal; apply list_filter_iff; intros s;
        unfold is_tutorial, is_lab; by rewrite bool_decide_eq_true.
    + apply equal_count_shape in Hc as (tc & lc & -> & _ & _ & _ & _ & _ & Hpar).
      by apply has_parallel_conflicts_spec.
  - intros tc lc Hts Hls Hlen Hpos Hmax Hpar Hm. apply Hchar. split; [|done].
    apply list_elem_of_In, equal_count_shape. exists tc, lc.
    repeat split; try done.
    + erewrite list_filter_iff; [exact Hts|]. intros s. unfold is_tutorial.
      by rewrite bool_decide_eq_true.
    + erewrite list_filter_iff; [exact Hls|]. intros s. unfold is_lab.
      by rewrite bool_decide_eq_true.
    + by apply has_parallel_conflicts_spec.
Qed.

Lemma C2_equal_count_and_number_matching_witness :
  let available :=
    filter (λ s, is_available_for_slot ∅ Example.ta_four s = true)
           (required_slots Example.course_four) in
  let result :=
    get_valid_slot_combinations Example.both_policies ∅ Example.ta_four
      Example.course_four 4 in
  (∀ combo,
     combo ∈ result
     ↔ combo ∈ _generate_equal_count_combinations available 4
       ∧ tutorial_numbers combo = lab_numbers combo)
  ∧ (∀ combo,
       combo ∈ result →
       length (filter (λ s, slot_type s = TUTORIAL) combo)
       = length (filter (λ s, slot_type s = LAB) combo)
       ∧ tutorial_numbers combo = lab_numbers combo
       ∧ Claim.parallel_free combo)
  ∧ (∀ tutorial_combo lab_combo,
       tutorial_combo `sublist_of` filter (λ s, slot_type s = TUTORIAL) available →
       lab_combo `sublist_of` filter (λ s, slot_type s = LAB) available →
       length tutorial_combo = length lab_combo →
       (1 ≤ length tutorial_combo)%nat →
       Z.of_nat (length (tutorial_combo ++ lab_combo)) ≤ 4 →
       Claim.parallel_free (tutorial_combo ++ lab_combo) →
       tutorial_numbers (tutorial_combo ++ lab_combo)
       = lab_numbers (tutorial_combo ++ lab_combo) →
       tutorial_combo ++ lab_combo ∈ result).
Proof.
  apply (C2_equal_count_and_number_matching Example.both_policies ∅
           Example.ta_four Example.course_four 4); reflexivity.
Defined.

(** The result for [course_four]: the two pairs with matching numbers and
    the combination of all four slots. *)
Lemma both_policies_course_four :
  get_valid_slot_combinations Example.both_policies ∅ Example.ta_four
    Example.course_four 4
  = [[Example.sun1_tut; Example.mon1_lab];
     [Example.mon2_tut; Example.tue2_lab];
     [Example.sun1_tut; Example.mon2_tut; Example.mon1_lab; Example.tue2_lab]].
Proof. vm_compute. reflexivity. Qed.

(** An equal-count combination with matching numbers that is not returned:
    for the course of the number-matching test, tutorial 1 and lab 1 are
    both on Sunday in slot 1.  The pair has one tutorial and one lab, its
    tutorial and lab numbers are both {1}, it is within the size bounds of
    the generator (two slots out of the five the TA has hours for), and it
    is left out because its two slots are at the same time; so is every
    other candidate, and nothing is returned. *)
Lemma C2_same_time_pair_not_returned :
  let policies := Example.both_policies in
  let t := Example.ta_matching in
  let c := Example.course_matching in
  let max_slots := get_remaining_capacity ∅ t `div` 2 in
  let available :=
    filter (λ s, is_available_for_slot ∅ t s = true) (required_slots c) in
  let combo := [Example.sun1_tut] ++ [Example.sun1_lab] in
  tutorial_lab_independence policies = false
  ∧ tutorial_lab_equal_count policies = true
  ∧ tutorial_lab_number_matching policies = true
  ∧ [Example.sun1_tut] `sublist_of` filter (λ s, slot_type s = TUTORIAL) available
  ∧ [Example.sun1_lab] `sublist_of` filter (λ s, slot_type s = LAB) available
  ∧ length (filter (λ s, slot_type s = TUTORIAL) combo)
    = length (filter (λ s, slot_type s = LAB) combo)
  ∧ tutorial_numbers combo = lab_numbers combo
  ∧ Z.of_nat (length combo) ≤ max_slots
  ∧ validate_assignment policies t c combo = (true, [])
  ∧ _has_parallel_conflicts combo = true
  ∧ (combo ∉ get_valid_slot_combinations policies ∅ t c max_slots)
  ∧ get_valid_slot_combinations policies ∅ t c max_slots = [].
Proof.
  cbv zeta.
  assert (get_valid_slot_combinations Example.both_policies ∅ Example.ta_matching
            Example.course_matching
            (get_remaining_capacity ∅ Example.ta_matching `div` 2) = []) as Hres
    by (vm_compute; reflexivity).
  rewrite Hres.
  repeat split; try (vm_compute; reflexivity); try (vm_compute; discriminate).
  - vm_compute. apply sublist_skip, sublist_nil_l.
  - vm_compute. apply sublist_skip, sublist_nil_l.
  - apply not_elem_of_nil.
Qed.

End ValidatorClaims.

(** ** Facts about [sorted], [max] and [min] *)

Section SortedFacts.
Context {A K : Type} (leb : K → K → bool) (key : A → K).
Hypothesis leb_total : ∀ x y, leb x y = false → leb y x = true.
Hypothesis leb_trans : ∀ x y z, leb x y = true → leb y z = true → leb x z = true.

Lemma leb_refl x : leb x x = true.
Proof. pose proof (leb_total x x) as H. destruct (leb x x); auto. Qed.

Lemma insert_sorted_Permutation x l : Py.insert_sorted leb key x l ≡ₚ x :: l.
Proof.
  induction l as [|y l IH]; simpl; [done|].
  destruct (leb (key x) (key y)); [done|].
  rewrite IH. apply Permutation_swap.
Qed.

Lemma sorted_Permutation l : Py.sorted leb key l ≡ₚ l.
Proof.
  induction l as [|x l IH]; simpl; [done|].
  fold (Py.sorted leb key l). by rewrite insert_sorted_Permutation, IH.
Qed.

Lemma sorted_elem_of x l : x ∈ Py.sorted leb key l ↔ x ∈ l.
Proof. by rewrite sorted_Permutation. Qed.

Lemma insert_sorted_StronglySorted x l :
  StronglySorted (λ a b, leb (key a) (key b) = true) l →
  StronglySorted (λ a b, leb (key a) (key b) = true) (Py.insert_sorted leb key x l).
Proof.
  induction 1 as [|y l Hs IH Hall]; simpl.
  - repeat constructor.
  - destruct (leb (key x) (key y)) eqn:E.
    + constructor; [by constructor|]. constructor; [exact E|].
      eapply Forall_impl; [exact Hall|]. intros z Hz. simpl in *. eauto.
    + constructor; [exact IH|].
      rewrite insert_sorted_Permutation. constructor; [|done].
      by apply leb_total.
Qed.

Lemma sorted_StronglySorted l :
  StronglySorted (λ a b, leb (key a) (key b) = true) (Py.sorted leb key l).
Proof.
  induction l as [|x l IH]; simpl; [constructor|].
  by apply insert_sorted_StronglySorted.
Qed.

(** Stability: the elements that satisfy a predicate which only depends on
    the key keep their order. *)
Lemma insert_sorted_filter (P : A → Prop) `{∀ a, Decision (P a)} x l :
  (∀ a b, P a → P b → leb (key a) (key b) = true) →
  filter P (Py.insert_sorted leb key x l) = filter P (x :: l).
Proof.
  intros HP. induction l as [|y l IH]; simpl; [done|].
  destruct (leb (key x) (key y)) eqn:E; [done|].
  rewrite filter_cons, IH, !filter_cons.
  destruct (decide (P y)), (decide (P x)); try done.
  rewrite HP in E; done.
Qed.

Lemma sorted_filter (P : A → Prop) `{∀ a, Decision (P a)} l :
  (∀ a b, P a → P b → leb (key a) (key b) = true) →
  filter P (Py.sorted leb key l) = filter P l.
Proof.
  intros HP. induction l as [|x l IH]; simpl; [done|].
  fold (Py.sorted leb key l).
  rewrite insert_sorted_filter by done. by rewrite !filter_cons, IH.
Qed.

Lemma sorted_stable `{EqDecision K} (k : K) l :
  filter (λ a, key a = k) (Py.sorted leb key l) = filter (λ a, key a = k) l.
Proof. apply sorted_filter. intros a b -> ->. apply leb_refl. Qed.

End SortedFacts.

Lemma StronglySorted_weaken {A} (R R' : A → A → Prop) l :
  (∀ a b, R a b → R' a b) → StronglySorted R l → StronglySorted R' l.
Proof.
  intros HR. induction 1 as [|x l Hs IH Hall]; constructor; [done|].
  eapply Forall_impl; [exact Hall|]. intros y. apply HR.
Qed.

Section ExtremumFacts.
Context {A K : Type} (ltb : K → K → bool) (key : A → K).
Hypothesis ltb_trans :
  ∀ x y z, ltb x y = false → ltb y z = false → ltb x z = false.
Hypothesis ltb_irrefl : ∀ x, ltb x x = false.
Hypothesis ltb_asym : ∀ x y, ltb x y = true → ltb y x = false.

Lemma max_by_in x l : Py.max_by ltb key x l ∈ x :: l.
Proof.
  revert x. induction l as [|y l IH]; intros x; simpl; [by left|].
  destruct (ltb (key x) (key y)).
  - right. apply IH.
  - specialize (IH x). apply elem_of_cons in IH as [->|?]; [by left|by do 2 right].
Qed.

Lemma max_by_ge_head x l : ltb (key (Py.max_by ltb key x l)) (key x) = false.
Proof.
  revert x. induction l as [|y l IH]; intros x; simpl; [apply ltb_irrefl|].
  destruct (ltb (key x) (key y)) eqn:E; [|apply IH].
  eapply ltb_trans; [apply IH|]. by apply ltb_asym.
Qed.

Lemma max_by_max x l a :
  a ∈ x :: l → ltb (key (Py.max_by ltb key x l)) (key a) = false.
Proof.
  revert x. induction l as [|y l IH]; intros x Ha.
  - apply list_elem_of_singleton in Ha as ->. apply ltb_irrefl.
  - simpl. apply elem_of_cons in Ha as [->|Ha].
    + destruct (ltb (key x) (key y)) eqn:E; [|apply max_by_ge_head].
      eapply ltb_trans; [apply max_by_ge_head|]. by apply ltb_asym.
    + destruct (ltb (key x) (key y)) eqn:E; [by apply IH|].
      apply elem_of_cons in Ha as [->|Ha].
      * eapply ltb_trans; [apply max_by_ge_head|exact E].
      * apply IH. by right.
Qed.

(** The maximum taken is the first one: the elements before it are
    strictly smaller, the elements after it are not larger. *)
Lemma max_by_first x l :
  ∃ before after,
    x :: l = before ++ Py.max_by ltb key x l :: after
    ∧ (∀ a, a ∈ before → ltb (key a) (key (Py.max_by ltb key x l)) = true)
    ∧ (∀ a, a ∈ after → ltb (key (Py.max_by ltb key x l)) (key a) = false).
Proof.
  revert x. induction l as [|y l IH]; intros x.
  - exists [], []. split; [done|]. split; by intros a ?%elem_of_nil.
  - change (Py.max_by ltb key x (y :: l))
      with (Py.max_by ltb key (if ltb (key x) (key y) then y else x) l).
    destruct (ltb (key x) (key y)) eqn:E.
    + destruct (IH y) as (before & after & Heq & Hb & Ha).
      exists (x :: before), after. split; [by rewrite Heq|]. split; [|done].
      intros a Hin. apply elem_of_cons in Hin as [Hax|Hin]; [subst a|by apply Hb].
      destruct (ltb (key x) (key (Py.max_by ltb key y l))) eqn:E'; [done|].
      rewrite (ltb_trans _ _ _ E' (max_by_ge_head y l)) in E. done.
    + destruct (IH x) as (before & after & Heq & Hb & Ha).
      destruct before as [|x' before].
      * injection Heq as Hx Hl. exists [], (y :: after).
        split; [by rewrite <- Hx, <- Hl|].
        split; [by intros a ?%elem_of_nil|].
        intros a Hin. apply elem_of_cons in Hin as [Hay|Hin];
          [subst a; rewrite <- Hx; exact E|by apply Ha].
      * injection Heq as <- Hl. exists (x :: y :: before), after.
        split; [simpl; by rewrite <- Hl|]. split; [|done].
        intros a Hin. apply elem_of_cons in Hin as [Hax|Hin];
          [subst a; apply Hb; by left|].
        apply elem_of_cons in Hin as [Hay|Hin]; [subst a|apply Hb; by right].
        destruct (ltb (key y) (key (Py.max_by ltb key x l))) eqn:E'; [done|].
        pose proof (Hb x ltac:(by left)) as Hx.
        rewrite (ltb_trans _ _ _ E E') in Hx. discriminate Hx.
Qed.

End ExtremumFacts.

(** ** The order of the courses *)

Section CourseOrder.
Import GlobalScheduler CourseScheduler Claim.

Lemma tuple_leb_spec x y : tuple_leb x y = true ↔ lex_le x y.
Proof.
  destruct x as [[x1 x2] x3], y as [[y1 y2] y3].
  unfold tuple_leb, lex_le, lex_lt, Qc_ltb; simpl.
  destruct (decide (x1 = y1)) as [->|Hne1];
    [destruct (decide (x2 = y2)) as [->|Hne2]|]; rewrite bool_decide_eq_true.
  - split.
    + intros H. destruct (decide (x3 = y3)) as [->|]; [by right|].
      left. right. split; [done|]. right. split; [done|lia].
    + intros [[H|[_ [H|[_ H]]]]|H]; [|lia|lia|].
      * by apply Qclt_not_eq in H.
      * injection H as ->. lia.
  - split.
    + intros H. left. right. split; [done|]. by left.
    + intros [[H|[_ [H|[H _]]]]|H]; [|done|done|].
      * by apply Qclt_not_eq in H.
      * by injection H.
  - split.
    + intros H. left. by left.
    + intros [[H|[H _]]|H]; [done|done|]. by injection H.
Qed.

Lemma lex_le_total x y : ¬ lex_le x y → lex_le y x.
Proof.
  destruct x as [[x1 x2] x3], y as [[y1 y2] y3].
  unfold lex_le, lex_lt; simpl. intros H.
  destruct (Qclt_le_dec x1 y1) as [Hlt|Hle]; [exfalso; apply H; by do 2 left|].
  apply Qcle_lt_or_eq in Hle as [Hlt| ->]; [by do 2 left|].
  destruct (Z.lt_trichotomy x2 y2) as [Hlt|[->|Hgt]].
  - exfalso. apply H. left. right. split; [done|]. by left.
  - destruct (Z.lt_trichotomy x3 y3) as [Hlt|[->|Hgt]].
    + exfalso. apply H. left. right. split; [done|]. right. done.
    + by right.
    + left. right. split; [done|]. right. done.
  - left. right. split; [done|]. by left.
Qed.

Lemma lex_le_trans x y z : lex_le x y → lex_le y z → lex_le x z.
Proof.
  destruct x as [[x1 x2] x3], y as [[y1 y2] y3], z as [[z1 z2] z3].
  unfold lex_le, lex_lt; simpl.
  intros [Hxy|Hxy] [Hyz|Hyz]; try (injection Hxy as -> -> ->);
    try (injection Hyz as -> -> ->); auto.
  left.
  destruct Hxy as [Hxy|[-> Hxy]], Hyz as [Hyz|[-> Hyz]].
  - left. by eapply Qclt_trans.
  - by left.
  - by left.
  - right. split; [done|]. lia.
Qed.

Lemma tuple_leb_total x y : tuple_leb x y = false → tuple_leb y x = true.
Proof.
  intros H. apply tuple_leb_spec, lex_le_total. rewrite <- tuple_leb_spec.
  by rewrite H.
Qed.

Lemma tuple_leb_trans x y z :
  tuple_leb x y = true → tuple_leb y z = true → tuple_leb x z = true.
Proof. rewrite !tuple_leb_spec. apply lex_le_trans. Qed.

Lemma Qcopp_le_iff (x y : Qc) : (- y ≤ - x)%Qc ↔ (x ≤ y)%Qc.
Proof.
  split; intros H.
  - apply Qcopp_le_compat in H. by rewrite !Qcopp_involutive in H.
  - by apply Qcopp_le_compat.
Qed.

Lemma Qcopp_lt_iff (x y : Qc) : (- x < - y)%Qc ↔ (y < x)%Qc.
Proof. by rewrite !Qclt_nge, Qcopp_le_iff. Qed.

Lemma priority_score_order st c1 c2 :
  tuple_leb (priority_score st c1) (priority_score st c2) = true
  ↔ lex_le (difficulty_tuple st c2) (difficulty_tuple st c1).
Proof.
  rewrite tuple_leb_spec. unfold lex_le, lex_lt, priority_score, difficulty_tuple.
  simpl. rewrite Qcopp_lt_iff. split.
  - intros [[H|[H1 H]]|H].
    + by do 2 left.
    + apply (inj Qcopp) in H1. left. right. split; [done|]. lia.
    + pose proof (f_equal (λ p, p.1.1) H) as H1; pose proof (f_equal (λ p, p.1.2) H) as H2;
      pose proof (f_equal snd H) as H3; simpl in H1, H2, H3.
      apply (inj Qcopp) in H1. right. f_equal; [f_equal|]; [done|lia|lia].
  - intros [[H|[H1 H]]|H].
    + by do 2 left.
    + left. right. split; [by rewrite H1|]. lia.
    + pose proof (f_equal (λ p, p.1.1) H) as H1; pose proof (f_equal (λ p, p.1.2) H) as H2;
      pose proof (f_equal snd H) as H3; simpl in H1, H2, H3.
      right. rewrite H1, H2, H3. done.
Qed.

Lemma priority_score_eq st c1 c2 :
  priority_score st c1 = priority_score st c2
  ↔ difficulty_tuple st c1 = difficulty_tuple st c2.
Proof.
  unfold priority_score, difficulty_tuple. split; intros H.
  - pose proof (f_equal (λ p, p.1.1) H) as H1; pose proof (f_equal (λ p, p.1.2) H) as H2;
    pose proof (f_equal snd H) as H3; simpl in H1, H2, H3.
    apply (inj Qcopp) in H1. f_equal; [f_equal|]; [done|lia|lia].
  - pose proof (f_equal (λ p, p.1.1) H) as H1; pose proof (f_equal (λ p, p.1.2) H) as H2;
    pose proof (f_equal snd H) as H3; simpl in H1, H2, H3.
    by rewrite H1, H2, H3.
Qed.

(** C8 (amended): the courses are processed in descending order of the
    tuple (difficulty ratio, number of required slots, number of assigned
    TAs), where the ratio divides the number of slots by the number of
    assigned TAs with at least two free hours, or by 1 when there is none;
    the two hours are a constant of the code, whatever the duration of the
    course's slots.  Courses with equal tuples keep their input order.
    The loop of [schedule_all_courses] runs over exactly this list, from
    the store in which the working sets have been reset. *)
Theorem C8_course_order policies st c cs :
  let st0 := _reset_ta_assignments st (c :: cs) in
  let sorted_courses := _sort_courses_by_priority st0 (c :: cs) in
  sorted_courses ≡ₚ c :: cs
  ∧ StronglySorted
      (λ c1 c2, lex_le (difficulty_tuple st0 c2) (difficulty_tuple st0 c1))
      sorted_courses
  ∧ (∀ k, filter (λ x, difficulty_tuple st0 x = k) sorted_courses
          = filter (λ x, difficulty_tuple st0 x = k) (c :: cs))
  ∧ (∀ x, difficulty_ratio st0 x
          = (Qc_of_Z (Z.of_nat (length (required_slots x)))
             / Qc_of_Z (Z.max 1 (Z.of_nat (length
                 (filter (λ t, (2 ≤ get_remaining_capacity st0 t)%Z) (assigned_tas x))))))%Qc)
  ∧ (schedule_all_courses policies st (c :: cs)).1
    = (foldl (course_step policies) (st0, [], [], []) sorted_courses).1.1.1.
Proof.
  intros st0 sorted_courses. subst sorted_courses. unfold _sort_courses_by_priority.
  split; [|split; [|split; [|split]]].
  - apply sorted_Permutation.
  - eapply StronglySorted_weaken;
      [|apply (sorted_StronglySorted tuple_leb (priority_score st0)
                 tuple_leb_total tuple_leb_trans)].
    intros c1 c2 H. by apply priority_score_order.
  - intros k. apply sorted_filter.
    intros a b Ha Hb. apply priority_score_order. right. by rewrite Ha, Hb.
  - intros x. unfold difficulty_ratio, capable_tas, Py.Zlength.
    rewrite Z.max_comm. do 5 f_equal. apply list_filter_iff. intros t.
    rewrite bool_decide_eq_true. lia.
  - unfold schedule_all_courses. rewrite decide_False by done.
    cbv zeta. fold st0. unfold _sort_courses_by_priority.
    destruct (foldl (course_step policies) (st0, [], [], [])
                (Py.sorted tuple_leb (priority_score st0) (c :: cs)))
      as [[[st1 asg] viol] un].
    destruct (decide (detect_conflicts asg = [])); [reflexivity|].
    by destruct (_resolve_conflicts st1 asg).
Qed.

(** With slots of four hours the order differs from the order of the
    tuples as the specification words them.  [course_long] has two slots
    of four hours, a TA with ten hours and a TA with three; the TA with
    three hours has no room for one slot of the course, so the worded
    ratio is 2/1, while the code counts both TAs and computes 2/2.
    [course_short] has ratio 3/2 either way.  By the worded tuples
    [course_long] comes first; the code processes [course_short] first. *)
Lemma C8_four_hour_slots_order :
  let courses := [Example.course_long; Example.course_short] in
  let st0 := _reset_ta_assignments ∅ courses in
  Forall (λ s, duration s = 4) (required_slots Example.course_long)
  ∧ Forall (λ s, duration s = 2) (required_slots Example.course_short)
  ∧ get_remaining_capacity st0 Example.ta_long_three = 3
  ∧ claimed_difficulty_ratio st0 Example.course_long = Qc_of_Z 2
  ∧ claimed_difficulty_ratio st0 Example.course_short = Q2Qc (3 # 2)
  ∧ difficulty_ratio st0 Example.course_long = Qc_of_Z 1
  ∧ difficulty_ratio st0 Example.course_short = Q2Qc (3 # 2)
  ∧ lex_lt (claimed_difficulty_tuple st0 Example.course_short)
           (claimed_difficulty_tuple st0 Example.course_long)
  ∧ _sort_courses_by_priority st0 courses
    = [Example.course_short; Example.course_long]
  ∧ course <$> assignments (global_schedule Runs.long_short_run.2)
    = [Example.course_short; Example.course_short; Example.course_short;
       Example.course_long; Example.course_long].
Proof.
  cbv zeta. split; [repeat constructor|]. split; [repeat constructor|].
  split; [vm_compute; reflexivity|].
  do 4 (split; [apply Qc_is_canon; vm_compute; reflexivity|]).
  split; [left; vm_compute; reflexivity|].
  split; vm_compute; reflexivity.
Qed.

End CourseOrder.

(** ** The conflict resolver *)

Section ResolverFacts.
Import CourseScheduler ConflictResolver GIUScheduler.

Lemma Qc_ltb_trans x y z :
  Qc_ltb x y = false → Qc_ltb y z = false → Qc_ltb x z = false.
Proof.
  unfold Qc_ltb. rewrite !bool_decide_eq_false, <- !Qcle_ngt.
  intros H1 H2. by etrans.
Qed.

Lemma Qc_ltb_irrefl x : Qc_ltb x x = false.
Proof. unfold Qc_ltb. rewrite bool_decide_eq_false. apply irreflexivity, _. Qed.

Lemma Qc_ltb_asym x y : Qc_ltb x y = true → Qc_ltb y x = false.
Proof.
  unfold Qc_ltb. rewrite bool_decide_eq_true, bool_decide_eq_false.
  intros H1 H2. by eapply (Qclt_not_le x y), Qclt_le_weak.
Qed.

Lemma put_object_subset a d x : x ∈ put_object a d → x = a ∨ x ∈ d.
Proof.
  induction d as [|b d IH]; simpl.
  - intros ->%list_elem_of_singleton. by left.
  - case_decide.
    + intros [->|?]%elem_of_cons; [by left|]. right. by right.
    + intros [->|?]%elem_of_cons; [right; by left|].
      destruct IH as [|]; [done|by left|]. right. by right.
Qed.

Lemma unique_objects_subset l x : x ∈ unique_objects l → x ∈ l.
Proof.
  unfold unique_objects.
  assert (∀ d, x ∈ foldl (λ d a, put_object a d) d l → x ∈ d ∨ x ∈ l) as H.
  { induction l as [|a l IH]; intros d; simpl; [by left|].
    intros [Hx|Hx]%IH; [|right; by right].
    apply put_object_subset in Hx as [->|Hx]; [right; by left|by left]. }
  intros [Hx|Hx]%H; [by apply elem_of_nil in Hx|done].
Qed.

Lemma keep_within_subset max_hours kept l x :
  x ∈ keep_within max_hours kept l → x ∈ l.
Proof.
  revert kept. induction l as [|a l IH]; intros kept; simpl; [done|].
  case_bool_decide; [|by intros ?%elem_of_nil].
  intros [->|?]%elem_of_cons; [by left|]. right. eauto.
Qed.

Lemma resolve_double_booking_subset st conflict current x :
  x ∈ (_resolve_double_booking st conflict current).1 → x ∈ current.
Proof.
  unfold _resolve_double_booking.
  destruct (filter _ current) as [|a [|b rest]] eqn:E; simpl; try done.
  intros [Hx|Hx]%elem_of_app.
  - by apply list_elem_of_filter in Hx as [_ ?].
  - apply list_elem_of_singleton in Hx as ->.
    pose proof (max_by_in PyFloat.ltb (ConflictResolver.assignment_score st) a (b :: rest)) as Hin.
    unfold _select_best_assignment. rewrite <- E in Hin.
    by apply list_elem_of_filter in Hin as [_ ?].
Qed.

Lemma resolve_overcapacity_subset conflict current x :
  x ∈ (_resolve_overcapacity conflict current).1 → x ∈ current.
Proof.
  unfold _resolve_overcapacity.
  destruct (filter _ current) as [|a rest] eqn:E; [done|].
  case_bool_decide; [done|]. cbn [fst].
  intros [Hx|Hx]%elem_of_app.
  - by apply list_elem_of_filter in Hx as [_ ?].
  - apply keep_within_subset, sorted_elem_of in Hx.
    rewrite <- E in Hx.
    by apply list_elem_of_filter in Hx as [_ ?].
Qed.

Lemma resolve_step_subset st acc conflict x :
  x ∈ (resolve_step st acc conflict).1 → x ∈ acc.1.
Proof.
  unfold resolve_step. destruct acc as [current msgs]. simpl.
  repeat case_decide.
  - pose proof (resolve_double_booking_subset st conflict current x) as H'.
    destruct (_resolve_double_booking st conflict current). simpl in *. done.
  - pose proof (resolve_overcapacity_subset conflict current x) as H'.
    destruct (_resolve_overcapacity conflict current). simpl in *. done.
  - done.
Qed.

Lemma resolve_fold_subset st acc conflicts x :
  x ∈ (foldl (resolve_step st) acc conflicts).1 → x ∈ acc.1.
Proof.
  revert acc. induction conflicts as [|c conflicts IH]; intros acc; simpl; [done|].
  intros Hx%IH. by eapply resolve_step_subset.
Qed.

Lemma resolve_automatically_subset st conflicts a :
  a ∈ (resolve_conflicts_automatically st conflicts).1 →
  ∃ c, c ∈ conflicts ∧ a ∈ ci_assignments c.
Proof.
  unfold resolve_conflicts_automatically. case_decide; simpl.
  { by intros ?%elem_of_nil. }
  intros Hx%resolve_fold_subset. simpl in Hx.
  apply unique_objects_subset, list_elem_of_In, in_flat_map in Hx as (c & Hc & Ha).
  exists c. by rewrite !list_elem_of_In.
Qed.

(** C9 (amended): [resolve_conflicts_automatically] returns only
    assignments that occur in some conflict of its input; and when the
    result passed to [GIUScheduler.resolve_conflicts] is not successful,
    with [auto_resolve = true] the resolved schedule is built from the
    conflicting assignments alone: an assignment of the original schedule
    that is in no detected conflict is absent from it. *)
Theorem C9_resolved_from_conflicts_only st :
  (∀ conflicts a,
     a ∈ (resolve_conflicts_automatically st conflicts).1 →
     ∃ c, c ∈ conflicts ∧ a ∈ ci_assignments c)
  ∧ (∀ result a,
       success result = false →
       a ∈ assignments (global_schedule result) →
       (∀ c, c ∈ detect_all_conflicts (assignments (global_schedule result)) →
             a ∉ ci_assignments c) →
       a ∉ assignments (global_schedule (resolve_conflicts st result true))).
Proof.
  split; [apply resolve_automatically_subset|].
  intros result a Hs _ Hno Hin. unfold resolve_conflicts in Hin.
  rewrite Hs in Hin.
  pose proof (resolve_automatically_subset st
                (detect_all_conflicts (assignments (global_schedule result))) a) as H.
  destruct (resolve_conflicts_automatically st _) as [resolved msgs].
  simpl in *. destruct (H Hin) as (c & Hc & Ha). by eapply Hno.
Qed.

End ResolverFacts.

Section ResolverExamples.
Import Example Runs ConflictResolver GIUScheduler.

Lemma C9_resolved_from_conflicts_only_witness :
  short_first ∉ assignments (global_schedule
                               (resolve_conflicts short_run.1 short_run.2 true)).
Proof.
  apply (proj2 (C9_resolved_from_conflicts_only short_run.1) short_run.2 short_first).
  - vm_compute. reflexivity.
  - vm_compute. apply list_elem_of_here.
  - intros c Hc. vm_compute in Hc. by apply elem_of_nil in Hc.
Defined.

(** A successful result is returned as it is: its assignments are in no
    detected conflict and are all still there. *)
Lemma C9_successful_result_kept :
  ¬ (∀ a,
       a ∈ assignments (global_schedule trivial_run.2) →
       (∀ c, c ∈ detect_all_conflicts (assignments (global_schedule trivial_run.2)) →
             a ∉ ci_assignments c) →
       a ∉ assignments (global_schedule
                          (resolve_conflicts trivial_run.1 trivial_run.2 true))).
Proof.
  intros H. apply (H trivial_first).
  - vm_compute. apply list_elem_of_here.
  - intros c Hc. vm_compute in Hc. by apply elem_of_nil in Hc.
  - vm_compute. apply list_elem_of_here.
Qed.

End ResolverExamples.

(** ** The greedy strategy keeps within the remaining capacity *)

Section GreedyCapacity.
Import PolicyValidator CourseScheduler.

Lemma by_number_lookup slots n s :
  by_number slots !! n = Some s → s ∈ slots.
Proof.
  unfold by_number.
  assert (∀ m : gmap Z TimeSlot,
            foldl (λ m s, <[slot_number s := s]> m) m slots !! n = Some s →
            m !! n = Some s ∨ s ∈ slots) as H.
  { induction slots as [|x slots IH]; intros m; simpl; [by left|].
    intros [Hm|Hin]%IH; [|right; by right].
    destruct (decide (slot_number x = n)) as [<-|Hne].
    - rewrite lookup_insert_eq in Hm. injection Hm as ->. right. by left.
    - rewrite lookup_insert_ne in Hm by done. by left. }
  intros [Hm|Hin]%H; [|done]. by rewrite lookup_empty in Hm.
Qed.

Lemma independent_bounds available max_slots combo :
  combo ∈ _generate_independent_combinations available max_slots →
  Py.Zlength combo ≤ max_slots ∧ combo ⊆ available.
Proof.
  intros Hin. apply list_elem_of_In, in_flat_map in Hin as (r & Hr & Hc).
  apply range_spec in Hr.
  apply list_elem_of_In, list_elem_of_filter in Hc as [_ Hc%list_elem_of_In].
  split.
  - apply combinations_length in Hc. unfold Py.Zlength. lia.
  - intros s Hs. by eapply combinations_subset.
Qed.

Lemma equal_count_bounds available max_slots combo :
  combo ∈ _generate_equal_count_combinations available max_slots →
  Py.Zlength combo ≤ max_slots ∧ combo ⊆ available.
Proof.
  intros Hin. apply list_elem_of_In, equal_count_shape in Hin
    as (tc & lc & -> & Hts & Hls & _ & _ & Hmax & _).
  split; [done|]. intros s [Hs|Hs]%elem_of_app.
  - eapply sublist_subseteq in Hs; [|exact Hts].
    by apply list_elem_of_filter in Hs as [_ ?].
  - eapply sublist_subseteq in Hs; [|exact Hls].
    by apply list_elem_of_filter in Hs as [_ ?].
Qed.

Lemma number_matching_bounds available max_slots combo :
  combo ∈ _generate_number_matching_combinations available max_slots →
  Py.Zlength combo ≤ max_slots ∧ combo ⊆ available.
Proof.
  intros Hin. apply list_elem_of_In in Hin.
  unfold _generate_number_matching_combinations in Hin.
  set (tutorials := by_number (filter (λ s, is_tutorial s = true) available)) in *.
  set (labs := by_number (filter (λ s, is_lab s = true) available)) in *.
  destruct (decide (dom tutorials ∩ dom labs = ∅)) as [|_]; [done|].
  apply in_flat_map in Hin as (pc & _ & Hin).
  apply in_flat_map in Hin as (numbers & _ & Hin).
  destruct (bool_decide _) eqn:Hmax; simpl in Hin; [|done].
  destruct (negb _); [|done]. destruct Hin as [<-|[]].
  apply bool_decide_eq_true in Hmax. split; [done|].
  intros s Hs. apply list_elem_of_In, in_flat_map in Hs as (n & _ & Hs).
  destruct (tutorials !! n) as [tu|] eqn:Ht; [|done].
  destruct (labs !! n) as [la|] eqn:Hl; [|done].
  apply by_number_lookup, list_elem_of_filter in Ht as [_ Ht].
  apply by_number_lookup, list_elem_of_filter in Hl as [_ Hl].
  destruct Hs as [<-|[<-|[]]]; done.
Qed.

Lemma valid_combinations_bounds policies st t c max_slots combo :
  combo ∈ get_valid_slot_combinations policies st t c max_slots →
  Py.Zlength combo ≤ max_slots ∧ combo ⊆ required_slots c.
Proof.
  unfold get_valid_slot_combinations.
  set (available := filter _ (required_slots c)).
  assert (available ⊆ required_slots c) as Hsub.
  { intros s Hs. by apply list_elem_of_filter in Hs as [_ ?]. }
  assert (∀ P : Prop, P ∧ combo ⊆ available → P ∧ combo ⊆ required_slots c) as Hw.
  { intros P [? ?]. split; [done|]. by etrans. }
  case_decide; [by intros ?%elem_of_nil|].
  destruct (tutorial_lab_independence policies).
  { intros H'. by apply Hw, independent_bounds. }
  destruct (tutorial_lab_equal_count policies),
    (tutorial_lab_number_matching policies); simpl; intros H'; apply Hw.
  - apply list_elem_of_filter in H' as [_ H']. by apply equal_count_bounds.
  - by apply equal_count_bounds.
  - by apply number_matching_bounds.
  - by apply independent_bounds.
Qed.

(** The slots picked by the loop over the best combination. *)
Lemma take_slots_spec base t c best asg0 un0 :
  let '(asg, assigned_slots, un) :=
    foldl (take_slot base t c) (asg0, [], un0) best in
  ∃ new, asg = asg0 ++ new
         ∧ slot <$> new = assigned_slots
         ∧ Forall (λ a, ta a = t ∧ course a = c) new
         ∧ assigned_slots `sublist_of` best.
Proof.
  assert (∀ asg1 assigned1 un1 new1,
            asg1 = asg0 ++ new1 → slot <$> new1 = assigned1 →
            Forall (λ a, ta a = t ∧ course a = c) new1 →
            let '(asg, assigned_slots, un) :=
              foldl (take_slot base t c) (asg1, assigned1, un1) best in
            ∃ new rest, asg = asg0 ++ new
                   ∧ slot <$> new = assigned_slots
                   ∧ Forall (λ a, ta a = t ∧ course a = c) new
                   ∧ assigned_slots = assigned1 ++ rest
                   ∧ rest `sublist_of` best) as H.
  { induction best as [|s best IH]; intros asg1 assigned1 un1 new1 H1 H2 H3; simpl.
    - exists new1, []. by rewrite app_nil_r.
    - case_bool_decide.
      + specialize (IH (asg1 ++ [mkAssignment (base + length asg1) t s c])
                       (assigned1 ++ [s]) (Py.remove s un1)
                       (new1 ++ [mkAssignment (base + length asg1) t s c])).
        destruct (foldl _ _ best) as [[asg assigned] un].
        destruct IH as (new & rest & Ha & Hb & Hc & Hd & He).
        * by rewrite H1, app_assoc.
        * by rewrite fmap_app, H2.
        * apply Forall_app. split; [done|]. by repeat constructor.
        * exists new, (s :: rest). repeat split; try done.
          -- by rewrite Hd, <- app_assoc.
          -- by constructor.
      + specialize (IH asg1 assigned1 un1 new1 H1 H2 H3).
        destruct (foldl _ _ best) as [[asg assigned] un].
        destruct IH as (new & rest & Ha & Hb & Hc & Hd & He).
        exists new, rest. repeat split; try done. by constructor. }
  specialize (H asg0 [] un0 []). rewrite app_nil_r in H.
  specialize (H eq_refl eq_refl (List.Forall_nil _)).
  destruct (foldl _ _ best) as [[asg assigned] un].
  destruct H as (new & rest & Ha & Hb & Hc & Hd & He).
  exists new. simpl in Hd. subst rest. done.
Qed.

Lemma slots_hours_fixed (slots : list TimeSlot) :
  Forall (λ s, duration s = 2) slots → slots_hours slots = 2 * Py.Zlength slots.
Proof.
  unfold slots_hours, Py.Zlength. induction 1 as [|s slots Hs _ IH]; [done|].
  rewrite fmap_cons. change (Py.sumZ (duration s :: (duration <$> slots)))
    with (duration s + Py.sumZ (duration <$> slots)).
  rewrite IH, Hs. simpl length. lia.
Qed.

(** When every slot of the course has the fixed duration of two hours, one
    iteration of the greedy loop appends assignments of its TA only, and
    their hours never exceed the capacity the TA had left. *)
Lemma greedy_step_within_capacity policies base c g t :
  Forall (λ s, duration s = 2) (required_slots c) →
  ∃ new,
    l_assignments (greedy_step policies base c g t) = l_assignments g ++ new
    ∧ Forall (λ a, ta a = t ∧ course a = c) new
    ∧ slots_hours (slot <$> new) ≤ Z.max 0 (get_remaining_capacity (l_store g) t).
Proof.
  intros Hdur. unfold greedy_step.
  case_bool_decide as Hcap.
  { exists []. rewrite app_nil_r. repeat split; [constructor|].
    change (slots_hours (slot <$> [])) with 0. lia. }
  set (combos := get_valid_slot_combinations _ _ _ _ _).
  destruct (decide (combos = [])) as [|Hne].
  { exists []. rewrite app_nil_r. repeat split; [constructor|].
    change (slots_hours (slot <$> [])) with 0. lia. }
  pose proof (take_slots_spec base t c (_select_best_combination t combos)
                (l_assignments g) (l_unassigned g)) as Hspec.
  destruct (foldl _ _ (_select_best_combination t combos)) as [[asg assigned] un].
  destruct Hspec as (new & -> & Hslots & Hall & Hsub).
  cbn [l_assignments]. exists new. split; [done|]. split; [done|].
  assert (_select_best_combination t combos ∈ combos) as Hbest.
  { destruct combos as [|c0 rest]; [done|]. apply max_by_in. }
  apply valid_combinations_bounds in Hbest as [Hlen Hreq].
  rewrite Hslots, slots_hours_fixed.
  - apply sublist_length in Hsub. unfold Py.Zlength in *.
    pose proof (Z.mul_div_le (get_remaining_capacity (l_store g) t) 2). lia.
  - apply Forall_forall. intros s Hs.
    rewrite Forall_forall in Hdur. apply Hdur, Hreq.
    by eapply sublist_subseteq.
Qed.

End GreedyCapacity.

(** ** Conflict detection and the order of resolution *)

Section DetectionFacts.
Import Example Runs Claim ConflictResolver.

Lemma detect_all_conflicts_kinds asg :
  Forall (λ c, (conflict_type c = "ta_double_booking" ∧ severity c = 10)
               ∨ (conflict_type c = "overcapacity" ∧ severity c = 8))
         (detect_all_conflicts asg).
Proof.
  unfold detect_all_conflicts, _detect_policy_violations.
  rewrite app_nil_r. apply Forall_app. split; apply Forall_forall; intros c Hc.
  - apply list_elem_of_In, in_flat_map in Hc as ([k l] & _ & Hc).
    case_bool_decide; [|done]. destruct Hc as [<-|[]]. left. split; reflexivity.
  - apply list_elem_of_In, in_flat_map in Hc as ([k l] & _ & Hc).
    destruct l as [|a l]; [done|]. cbv zeta in Hc. case_bool_decide; [|done].
    destruct Hc as [<-|[]]. right. split; reflexivity.
Qed.

Lemma geb_total (x y : Z) : (x >=? y) = false → (y >=? x) = true.
Proof. lia. Qed.

Lemma geb_trans (x y z : Z) :
  (x >=? y) = true → (y >=? z) = true → (x >=? z) = true.
Proof. lia. Qed.

(** Resolution runs over the conflicts in descending severity, conflicts of
    equal severity in their input order. *)
Lemma sorted_conflicts_descending conflicts :
  sorted_conflicts conflicts ≡ₚ conflicts
  ∧ StronglySorted (λ c1 c2, severity c2 ≤ severity c1) (sorted_conflicts conflicts)
  ∧ ∀ k, filter (λ c, severity c = k) (sorted_conflicts conflicts)
         = filter (λ c, severity c = k) conflicts.
Proof.
  unfold sorted_conflicts. split; [apply sorted_Permutation|]. split.
  - eapply StronglySorted_weaken;
      [|apply (sorted_StronglySorted Z.geb severity geb_total geb_trans)].
    intros c1 c2 H. simpl in H. lia.
  - intros k. apply (sorted_stable Z.geb severity geb_total).
Qed.

(** A conflict that is neither a double booking nor an overcapacity leaves
    the assignments and the messages as they are. *)
Lemma resolve_step_other st acc conflict :
  conflict_type conflict ≠ "ta_double_booking" →
  conflict_type conflict ≠ "overcapacity" →
  resolve_step st acc conflict = acc.
Proof.
  intros H1 H2. unfold resolve_step. destruct acc as [current msgs].
  by rewrite !decide_False.
Qed.

(** C6: in the schedule of the greedy run of [course_three] under the
    equal-count policy the second TA holds one tutorial and no lab, which
    the validator reports as a violation; [detect_all_conflicts] returns
    no conflict for this schedule, so no policy violation of severity 5. *)
Theorem C6_policy_violation_not_detected :
  let asg := assignments (global_schedule equal_count_run.2) in
  slot_set "ta2" "c1" asg = [mon2_tut]
  ∧ PolicyValidator.validate_assignment equal_count_only ta_late course_three
      (slot_set "ta2" "c1" asg)
    = (false, [MsgEqualCount 1 0])
  ∧ detect_all_conflicts asg = [].
Proof. repeat split; vm_compute; reflexivity. Qed.

End DetectionFacts.

(** ** The fairness strategy *)

Section FairnessFacts.
Import Example Runs Claim CourseScheduler.

Lemma leb_total (x y : Z) : (x <=? y) = false → (y <=? x) = true.
Proof. lia. Qed.

Lemma leb_trans (x y z : Z) :
  (x <=? y) = true → (y <=? z) = true → (x <=? z) = true.
Proof. lia. Qed.

(** What the sort does: most available TAs first, ties in input order. *)
Lemma sort_slots_descending st slots tas :
  _sort_slots_by_difficulty st slots tas ≡ₚ slots
  ∧ StronglySorted (λ s1 s2, available_count st tas s2 ≤ available_count st tas s1)
                   (_sort_slots_by_difficulty st slots tas)
  ∧ ∀ k, filter (λ s, available_count st tas s = k)
                (_sort_slots_by_difficulty st slots tas)
         = filter (λ s, available_count st tas s = k) slots.
Proof.
  unfold _sort_slots_by_difficulty. split; [apply sorted_Permutation|]. split.
  - eapply StronglySorted_weaken;
      [|apply (sorted_StronglySorted Z.leb (difficulty_score st tas)
                 leb_total leb_trans)].
    intros s1 s2 H. unfold difficulty_score in H. simpl in H. lia.
  - intros k. apply sorted_filter. intros a b Ha Hb.
    unfold difficulty_score. lia.
Qed.

(** C3: [sun1_tut] can be served by one TA of [course_scarce] and
    [mon1_lab] by two, yet the sort puts [mon1_lab] first and the fairness
    loop assigns it first (its assignment is the first object created). *)
Theorem C3_scarcest_slot_not_first :
  let tas := assigned_tas course_scarce in
  available_count ∅ tas sun1_tut = 1
  ∧ available_count ∅ tas mon1_lab = 2
  ∧ _sort_slots_by_difficulty ∅ (required_slots course_scarce) tas
    = [mon1_lab; sun1_tut]
  ∧ assignments (global_schedule scarce_run.2)
    = [mkAssignment 0 ta_both mon1_lab course_scarce;
       mkAssignment 1 ta_both sun1_tut course_scarce].
Proof. repeat split; vm_compute; reflexivity. Qed.

(** With the scarcest slot first the same loop gives each TA one slot. *)
Lemma scarcest_first_would_share :
  let tas := assigned_tas course_scarce in
  let per_ta : gmap string (list TimeSlot) :=
    foldl (λ m t, <[ta_id t := []]> m) ∅ tas in
  (foldl (fairness_step 0 ∅ course_scarce tas
            (get_total_hours course_scarce `div` 2))
         ([], per_ta, required_slots course_scarce) [sun1_tut; mon1_lab]).1.1
  = [mkAssignment 0 ta_both sun1_tut course_scarce;
     mkAssignment 1 ta_lab mon1_lab course_scarce].
Proof. vm_compute. reflexivity. Qed.

(** C1: the fairness run on a course of two slots with a single TA who has
    two hours a week succeeds and gives the TA four hours.  The greedy run
    on the same input gives the TA two hours and reports the other slot as
    unassigned. *)
Theorem C1_fairness_exceeds_capacity :
  success fairness_run.2 = true
  ∧ assigned_hours "ta1" (assignments (global_schedule fairness_run.2)) = 4
  ∧ max_weekly_hours ta_two = 2
  ∧ success short_run.2 = false
  ∧ assigned_hours "ta1" (assignments (global_schedule short_run.2)) = 2.
Proof. repeat split; vm_compute; reflexivity. Qed.

End FairnessFacts.

(** ** The greedy choice *)

Section GreedyFacts.
Import Example Runs Claim CourseScheduler.

Lemma score_fold t combo (acc : Qc) :
  foldl (λ score s,
           match preferred_slots t !! s with
           | Some preference_rank =>
               score + Qc_of_Z (Z.max 0 (10 - preference_rank))
           | None => score + Qc_of_Z 5
           end)%Qc acc combo
  = (acc + Qc_of_Z (Py.sumZ (slot_points t <$> combo)))%Qc.
Proof.
  revert acc. induction combo as [|s combo IH]; intros acc; simpl.
  - rewrite Z2Qc_inj_0. ring.
  - rewrite IH, Z2Qc_inj_add. unfold slot_points at 2.
    destruct (preferred_slots t !! s); by rewrite Qcplus_assoc.
Qed.

Lemma score_combination_sum t combo :
  score_combination t combo
  = (Qc_of_Z (Py.sumZ (slot_points t <$> combo))
     + Qc_of_Z (Z.of_nat (length combo)) * Q2Qc (1 # 2))%Qc.
Proof.
  unfold score_combination. rewrite score_fold. unfold half, Py.Zlength. ring.
Qed.

(** C7 (amended): the combination selected is one of the candidates and
    none of them has a strictly larger score, where the score is the sum
    over the slots of [max(0, 10 - rank)] for a slot the TA ranks and of 5
    for a slot the TA does not rank, plus half the number of slots.  Among
    equal top scores the first generated is taken: every candidate
    generated before the selected one has a strictly smaller score, and no
    candidate generated after it has a larger one. *)
Theorem C7_best_combination_maximal t combinations combo :
  combo ∈ combinations →
  _select_best_combination t combinations ∈ combinations
  ∧ ¬ (score_combination t (_select_best_combination t combinations)
       < score_combination t combo)%Qc
  ∧ (∀ c, score_combination t c
          = (Qc_of_Z (Py.sumZ (slot_points t <$> c))
             + Qc_of_Z (Z.of_nat (length c)) * Q2Qc (1 # 2))%Qc)
  ∧ ∃ before after,
      combinations = before ++ _select_best_combination t combinations :: after
      ∧ (∀ c, c ∈ before →
              (score_combination t c
               < score_combination t (_select_best_combination t combinations))%Qc)
      ∧ (∀ c, c ∈ after →
              (score_combination t c
               ≤ score_combination t (_select_best_combination t combinations))%Qc).
Proof.
  intros Hin. destruct combinations as [|c0 rest]; [by apply elem_of_nil in Hin|].
  cbn [_select_best_combination].
  split; [apply max_by_in|]. split; [|split; [apply score_combination_sum|]].
  - pose proof (max_by_max Qc_ltb (score_combination t)
                  Qc_ltb_trans Qc_ltb_irrefl Qc_ltb_asym c0 rest combo Hin) as H.
    unfold Qc_ltb in H. by apply bool_decide_eq_false in H.
  - destruct (max_by_first Qc_ltb (score_combination t)
                Qc_ltb_trans Qc_ltb_irrefl Qc_ltb_asym c0 rest)
      as (before & after & Heq & Hb & Ha).
    exists before, after. split; [exact Heq|]. split.
    + intros c Hc. specialize (Hb c Hc). unfold Qc_ltb in Hb.
      by apply bool_decide_eq_true in Hb.
    + intros c Hc. specialize (Ha c Hc). unfold Qc_ltb in Ha.
      apply bool_decide_eq_false in Ha. by apply Qcnot_lt_le.
Qed.

Lemma C7_best_combination_maximal_witness :
  _select_best_combination ta_ten [[sun1_tut]; [mon1_lab]]
    ∈ [[sun1_tut]; [mon1_lab]]
  ∧ ¬ (score_combination ta_ten
         (_select_best_combination ta_ten [[sun1_tut]; [mon1_lab]])
       < score_combination ta_ten [mon1_lab])%Qc
  ∧ (∀ c, score_combination ta_ten c
          = (Qc_of_Z (Py.sumZ (slot_points ta_ten <$> c))
             + Qc_of_Z (Z.of_nat (length c)) * Q2Qc (1 # 2))%Qc)
  ∧ ∃ before after,
      [[sun1_tut]; [mon1_lab]]
      = before ++ _select_best_combination ta_ten [[sun1_tut]; [mon1_lab]] :: after
      ∧ (∀ c, c ∈ before →
              (score_combination ta_ten c
               < score_combination ta_ten
                   (_select_best_combination ta_ten [[sun1_tut]; [mon1_lab]]))%Qc)
      ∧ (∀ c, c ∈ after →
              (score_combination ta_ten c
               ≤ score_combination ta_ten
                   (_select_best_combination ta_ten [[sun1_tut]; [mon1_lab]]))%Qc).
Proof.
  apply (C7_best_combination_maximal ta_ten [[sun1_tut]; [mon1_lab]] [mon1_lab]).
  apply list_elem_of_further, list_elem_of_here.
Defined.

(** Two combinations with the same score, in both orders: the first one is
    taken. *)
Lemma select_best_first_of_equal_scores :
  score_combination ta_ten [sun1_tut] = score_combination ta_ten [mon1_lab]
  ∧ _select_best_combination ta_ten [[sun1_tut]; [mon1_lab]] = [sun1_tut]
  ∧ _select_best_combination ta_ten [[mon1_lab]; [sun1_tut]] = [mon1_lab].
Proof.
  split; [apply Qc_is_canon; vm_compute; reflexivity|].
  split; vm_compute; reflexivity.
Qed.

(** With the score as the specification words it, the greedy run of
    [course_ranked] passes over the legal combination with the strictly
    larger score: [sun1_tut], ranked seventh, scores 3.5 and the unranked
    [mon1_lab] 0.5, and the TA is given [mon1_lab]. *)
Lemma C7_larger_claimed_score_passed_over :
  let legal :=
    PolicyValidator.get_valid_slot_combinations no_policies ∅ ta_ranked
      course_ranked (get_remaining_capacity ∅ ta_ranked `div` 2) in
  legal = [[sun1_tut]; [mon1_lab]]
  ∧ (claimed_score ta_ranked [mon1_lab] < claimed_score ta_ranked [sun1_tut])%Qc
  ∧ _select_best_combination ta_ranked legal = [mon1_lab]
  ∧ slot_set "ta1" "c1" (assignments (global_schedule ranked_run.2)) = [mon1_lab].
Proof. repeat split; vm_compute; reflexivity. Qed.

End GreedyFacts.

(** ** The backtracking driver *)

Section DriverFacts.
Import SimpleMain.
Variable policies : SchedulingPolicies.
Variable ta_list : list TAd.
Variable request_course_id : Z.

Abbreviation candidate_score := (candidate_score policies ta_list request_course_id).
Abbreviation candidates_for := (get_all_candidate_tas_for_slot policies ta_list request_course_id).

Lemma candidate_score_strict slot_req current t :
  candidate_score false slot_req current t
  = if is_blocked t slot_req || on_day_off t slot_req then None
    else candidate_score true slot_req current t.
Proof.
  unfold SimpleMain.candidate_score.
  destruct (is_premasters_violation t _ _), (is_blocked t slot_req),
    (on_day_off t slot_req); reflexivity.
Qed.

Lemma candidate_score_relaxed slot_req current t :
  is_Some (candidate_score true slot_req current t)
  ↔ is_premasters_violation t (day slot_req) (slot slot_req) = false
    ∧ is_ta_already_assigned_to_slot t slot_req current = false
    ∧ exceeds_hour_allocation ta_list request_course_id t slot_req current = false
    ∧ violates_tutorial_lab_independence policies ta_list t slot_req current = false
    ∧ violates_tutorial_lab_number_matching policies ta_list t slot_req current = false.
Proof.
  unfold SimpleMain.candidate_score.
  destruct (is_premasters_violation t _ _),
    (is_ta_already_assigned_to_slot t slot_req current),
    (exceeds_hour_allocation ta_list request_course_id t slot_req current),
    (violates_tutorial_lab_independence policies ta_list t slot_req current),
    (violates_tutorial_lab_number_matching policies ta_list t slot_req current);
    simpl; split; intros H; try (by destruct H as [? [=]]);
    try (destruct H as (?&?&?&?&?); discriminate); try eauto.
Qed.

Lemma omap_filter {A B} (f : A → option B) (P : A → Prop)
    `{∀ x, Decision (P x)} (l : list A) :
  omap f (filter P l) = omap (λ x, if decide (P x) then f x else None) l.
Proof.
  induction l as [|x l IH]; [done|].
  rewrite filter_cons. simpl. change (list_omap A B) with (@omap list _ A B) in *.
  destruct (decide (P x)); simpl; change (list_omap A B) with (@omap list _ A B);
    by rewrite IH.
Qed.

Lemma candidates_strict_relaxed slot_req current available_tas :
  candidates_for slot_req current available_tas false
  = candidates_for slot_req current
      (filter (λ t, is_blocked t slot_req = false ∧ on_day_off t slot_req = false)
              available_tas)
      true.
Proof.
  unfold get_all_candidate_tas_for_slot. rewrite omap_filter.
  do 2 f_equal. apply list_omap_ext, Forall2_same_length_lookup.
  split; [done|]. intros i t t' Ht Ht'. rewrite Ht in Ht'. injection Ht' as <-.
  rewrite candidate_score_strict.
  destruct (decide (is_blocked t slot_req = false ∧ on_day_off t slot_req = false))
    as [[-> ->]|Hn]; [done|].
  destruct (is_blocked t slot_req), (on_day_off t slot_req); simpl; try done.
  by destruct Hn.
Qed.

Lemma candidates_relaxed_elem slot_req current available_tas t :
  t ∈ candidates_for slot_req current available_tas true
  ↔ t ∈ available_tas
    ∧ is_premasters_violation t (day slot_req) (slot slot_req) = false
    ∧ is_ta_already_assigned_to_slot t slot_req current = false
    ∧ exceeds_hour_allocation ta_list request_course_id t slot_req current = false
    ∧ violates_tutorial_lab_independence policies ta_list t slot_req current = false
    ∧ violates_tutorial_lab_number_matching policies ta_list t slot_req current = false.
Proof.
  rewrite <- candidate_score_relaxed.
  unfold get_all_candidate_tas_for_slot.
  rewrite list_elem_of_fmap. split.
  - intros ([t' score] & -> & Hin). simpl.
    apply sorted_elem_of, list_elem_of_omap in Hin as (t'' & Hin & Hs).
    destruct (candidate_score true slot_req current t'') eqn:E; [|done].
    simpl in Hs. injection Hs as -> ->. split; [done|]. by rewrite E.
  - intros [Hin [score Hs]]. exists (t, score). split; [done|].
    apply sorted_elem_of, list_elem_of_omap. exists t. split; [done|].
    by rewrite Hs.
Qed.

(** C5 (amended): the strict candidates are the relaxed candidates among
    the TAs that are neither blocked nor on their day off for the slot, so
    relaxation drops exactly these two filters; a TA is a relaxed
    candidate exactly when it passes the premasters rule, the
    double-booking test, the per-course hour cap and the independence and
    number-matching filters; and a call of the driver takes the relaxed
    list when, and only when, its strict list is empty, at the depth of
    that call. *)
Theorem C5_relaxation_drops_soft_filters shuffle variation_seed depth slot_req
    current available_tas :
  candidates_for slot_req current available_tas false
  = candidates_for slot_req current
      (filter (λ t, is_blocked t slot_req = false ∧ on_day_off t slot_req = false)
              available_tas)
      true
  ∧ (∀ t,
       t ∈ candidates_for slot_req current available_tas true
       ↔ t ∈ available_tas
         ∧ is_premasters_violation t (day slot_req) (slot slot_req) = false
         ∧ is_ta_already_assigned_to_slot t slot_req current = false
         ∧ exceeds_hour_allocation ta_list request_course_id t slot_req current = false
         ∧ violates_tutorial_lab_independence policies ta_list t slot_req current
           = false
         ∧ violates_tutorial_lab_number_matching policies ta_list t slot_req current
           = false)
  ∧ candidates_at policies ta_list request_course_id shuffle variation_seed depth
      slot_req current
    = (let candidates :=
         if decide (candidates_for slot_req current ta_list false = [])
         then candidates_for slot_req current ta_list true
         else candidates_for slot_req current ta_list false in
       if decide (candidates = [] ∨ variation_seed = 0) then candidates
       else shuffle (variation_seed + depth) candidates).
Proof.
  split; [apply candidates_strict_relaxed|].
  split; [intros t; apply candidates_relaxed_elem|].
  unfold candidates_at. cbv zeta.
  destruct (decide (candidates_for slot_req current ta_list false = [])) as [He|Hs];
    repeat case_decide; try done; tauto.
Qed.

End DriverFacts.

Section DriverExamples.
Import SimpleMain DriverExample.

(** The only TA of the request has Sunday off and the slot is on Sunday:
    the strict list is empty, the relaxed list holds the TA, the TA is
    placed, and the stored schedule is a success with no violation
    counted.  In the schedule for the whole week the single TA is given
    all thirty slots, sixty hours. *)
Lemma C5_relaxed_placement_unreported :
  get_all_candidate_tas_for_slot Example.no_policies [ta_sunday_off] 1
    sunday_tutorial [] [ta_sunday_off] false = []
  ∧ get_all_candidate_tas_for_slot Example.no_policies [ta_sunday_off] 1
      sunday_tutorial [] [ta_sunday_off] true = [ta_sunday_off]
  ∧ sched_assignments day_off_schedule
    = [test_assignment "Course One" sunday_tutorial ta_sunday_off]
  ∧ stat_policy_violations day_off_schedule = 0%nat
  ∧ sched_success day_off_schedule = true
  ∧ sched_success whole_week_schedule = true
  ∧ Py.sumZ (a_duration <$> filter (λ a, a_ta_name a = t_name ta_a)
                                   (sched_assignments whole_week_schedule)) = 60.
Proof. repeat split; vm_compute; reflexivity. Qed.

End DriverExamples.

(** ** Dependence on the random generator *)

Section Determinism.
Import SimpleMain CourseScheduler.
Variable policies : SchedulingPolicies.
Variable ta_list : list TAd.
Variable request_course_id : Z.
Variable course_data_name : string.
Variable expired : nat → bool.

Lemma candidates_at_unseeded shuffle1 shuffle2 depth slot_req current :
  candidates_at policies ta_list request_course_id shuffle1 0 depth slot_req current
  = candidates_at policies ta_list request_course_id shuffle2 0 depth slot_req current.
Proof. unfold candidates_at. by repeat case_decide. Qed.

(** C4 (amended): with the variation seed 0 the backtracking driver never
    consults the random generator: for any two generators it returns the
    same success flag, assignments and failed slots on the same inputs and
    the same clock.  Without fairness mode [optimize_assignments] returns
    its input whatever the generator.  ([schedule_all_courses] has no
    generator among its inputs at all.) *)
Theorem C4_unseeded_driver_ignores_generator shuffle1 shuffle2 max_depth
    slots_to_assign current depth clock :
  intelligent_backtrack_assignment policies ta_list request_course_id
    course_data_name shuffle1 expired max_depth 0 slots_to_assign current depth clock
  = intelligent_backtrack_assignment policies ta_list request_course_id
      course_data_name shuffle2 expired max_depth 0 slots_to_assign current depth clock
  ∧ ∀ shuffle i e n st c asg,
      optimize_assignments shuffle (mkPolicies i e n false) st c asg = asg.
Proof.
  split; [|done].
  revert current depth clock.
  induction slots_to_assign as [|slot_req remaining IH]; intros current depth clock.
  - reflexivity.
  - cbn [intelligent_backtrack_assignment].
    case_bool_decide; [done|]. destruct (expired clock); [done|].
    rewrite (candidates_at_unseeded shuffle1 shuffle2).
    generalize (S clock).
    induction (candidates_at policies ta_list request_course_id shuffle2 0 depth
                 slot_req current) as [|t l IHl]; intros k; [done|].
    rewrite IH.
    destruct (intelligent_backtrack_assignment _ _ _ _ shuffle2 _ _ _ _ _ _ _)
      as [[[ok fin] failed] k'].
    destruct ok; [done|]. apply IHl.
Qed.

End Determinism.

Section DeterminismExamples.
Import Example Runs CourseScheduler DriverExample.

(** Reversal and the identity are both outcomes of a shuffle.  On the
    fairness run of [course_five], [optimize_assignments] returns the
    assignments in the order the generator produced; and the schedule the
    driver stores for one Sunday tutorial and two free TAs names the TA the
    shuffle put first. *)
Lemma C4_result_depends_on_generator :
  (∀ l : list ScheduleAssignment, @rev _ l ≡ₚ l)
  ∧ optimize_assignments (λ l, l) fairness_only uneven_run.1 course_five
      (assignments (global_schedule uneven_run.2))
    ≠ optimize_assignments (@rev _) fairness_only uneven_run.1 course_five
        (assignments (global_schedule uneven_run.2))
  ∧ SimpleMain.sched_assignments
      (SimpleMain.simple_fallback_schedule no_policies [ta_a; ta_b] 1 "Course One"
         keep_order never_expired 1 [sunday_tutorial])
    ≠ SimpleMain.sched_assignments
        (SimpleMain.simple_fallback_schedule no_policies [ta_a; ta_b] 1 "Course One"
           reverse_order never_expired 1 [sunday_tutorial]).
Proof.
  split; [intros l; symmetry; apply Permutation_rev|].
  split; vm_compute; intros H; discriminate H.
Qed.

End DeterminismExamples.
